(** * PyWebScraping.webdrivers.FireFox

    A shallow embedding of [src/PyWebScraping/webdrivers/FireFox.py] and
    the properties its specification states about it.

    The Python module defines four classes: [FirefoxOptionsManager],
    [FirefoxStartArgs], [FirefoxWebDriver] and [FirefoxRemoteWebDriver].
    Their objects are mutable and shared by reference, so the embedding
    keeps a store of objects addressed by location; methods are programs
    of a state-and-exception monad over that store.  Calls that cross the
    boundary to the automation library are recorded in a trace, in the
    order in which the Python statements issue them. *)

From stdpp Require Import gmap strings list pretty.
From Stdlib Require Import ZArith Ascii.

Open Scope string_scope.
Open Scope list_scope.
Open Scope Z_scope.

(** ** Python values, exceptions and the [%] operator *)

Inductive exn :=
| TypeError            (* a template and its value do not fit *)
| ValueError           (* selenium: add_argument with an empty argument *)
| AttributeError       (* attribute access on None *)
| Dangling             (* a location with no object; unreachable from Python *)
| WebDriverException.  (* a call to the automation library failed *)

Inductive result (A : Type) :=
| Ok (a : A)
| Raise (e : exn).
Arguments Ok {A} a.
Arguments Raise {A} e.

(** The right operand of [template % value] when it is a single value. *)
Inductive pyval :=
| PyInt (n : Z)
| PyStr (s : string).

(** The double-quote character (code 34), written by its code so that no
    string literal of this file has to escape it. *)
Definition dquote : ascii := "034"%char.

(** One conversion: [%d] wants an integer, [%s] takes [str(v)]. *)
Definition convert (c : ascii) (v : pyval) : option string :=
  if Ascii.eqb c "d" then
    match v with PyInt n => Some (pretty n) | PyStr _ => None end
  else if Ascii.eqb c "s" then
    match v with PyInt n => Some (pretty n) | PyStr s => Some s end
  else None.

(** [percent tmpl v] is Python's [tmpl % v] for a single non-tuple value:
    [v] is consumed by the first conversion, [%%] is a literal percent
    sign, and both a conversion without a value and a value without a
    conversion are errors.  The substituted text is not scanned again.
    Only the conversions [%d] and [%s] without flags are understood; they
    are the ones in the templates of this module. *)
Fixpoint percent (tmpl : string) (v : option pyval) : option string :=
  match tmpl with
  | EmptyString =>
      match v with None => Some EmptyString | Some _ => None end
  | String c EmptyString =>
      if Ascii.eqb c "%" then None
      else match v with None => Some (String c EmptyString) | Some _ => None end
  | String c (String d rest as tl) =>
      if Ascii.eqb c "%" then
        if Ascii.eqb d "%" then String "%" <$> percent rest v
        else
          match v with
          | None => None
          | Some x =>
              match convert d x, percent rest None with
              | Some s, Some r => Some (s +:+ r)
              | _, _ => None
              end
          end
      else String c <$> percent tl v
  end.

(** A template applied to its value; a mismatch is Python's TypeError. *)
Definition format (tmpl : string) (v : pyval) : result string :=
  match percent tmpl (Some v) with
  | Some s => Ok s
  | None => Raise TypeError
  end.

(** ** The state-and-exception monad *)

Definition M (S A : Type) : Type := S -> result A * S.

Definition ret {S A} (a : A) : M S A := fun s => (Ok a, s).

Definition bind {S A B} (m : M S A) (k : A -> M S B) : M S B :=
  fun s =>
    match m s with
    | (Ok a, s') => k a s'
    | (Raise e, s') => (Raise e, s')
    end.

Definition raise {S A} (e : exn) : M S A := fun s => (Raise e, s).
Definition get {S} : M S S := fun s => (Ok s, s).
Definition modify {S} (f : S -> S) : M S unit := fun s => (Ok tt, f s).

(** A pure computation that may raise, run inside the monad. *)
Definition lift_result {S A} (r : result A) : M S A := fun s => (r, s).

Declare Scope py_scope.
Delimit Scope py_scope with py.
Notation "'let*' x ':=' m 'in' k" := (bind m (fun x => k))
  (at level 10, x name, m at level 100, k at level 200) : py_scope.
Notation "m ';;' k" := (bind m (fun _ => k))
  (at level 100, k at level 200, right associativity) : py_scope.
Open Scope py_scope.

(** ** Objects *)

(** Objects live in a store and are named by their location, as Python
    names them by identity. *)
Definition loc := nat.

(** [selenium.webdriver.firefox.options.Options], as far as this module
    and its base classes use it: the argument list that [add_argument]
    extends, and the debugger address, the attribute on which the options
    manager puts its debugging-port feature. *)
Module Options.
Record t := {
  arguments : list string;
  debugger_address : option string;
}.

(** [Options()]. *)
Definition empty : t := {| arguments := []; debugger_address := None |}.
End Options.

(** [selenium.webdriver.firefox.service.Service(executable_path=...)]. *)
Module Service.
Record t := { executable_path : string }.
End Service.

(** The control handle, [webdriver.Firefox] or [webdriver.Remote]: the
    session its commands are routed to. *)
Module WebDriver.
Record t := { session_id : string }.
End WebDriver.

Module WindowRect.
(** Modelled from the spec: [PyWebScraping.utilities.WindowRect], missing
    from src.  "WindowRect: {x: int, y: int, width: int, height: int}",
    the four attributes [create_driver] reads. *)
Record t := { x : Z; y : Z; width : Z; height : Z }.
End WindowRect.

(** [proxy: str | list[str] | None], without the [None]. *)
Inductive proxy_value :=
| ProxyStr (s : string)
| ProxyList (l : list string).

(** The attributes of a [FirefoxOptionsManager] object, listed in the
    class docstring (lines 18-25).  [options] is a reference: the
    [Options] object is shared with whoever reads the attribute. *)
Module OptionsManager.
Record t := {
  options : loc;
  debugging_port_command : string;
  user_agent_command : string;
  proxy_command : string;
  debugging_port : option Z;
  user_agent : option (list string);
  proxy : option proxy_value;
}.
End OptionsManager.

(** The attributes of a [FirefoxStartArgs] object (lines 83-93). *)
Module StartArgs.
Record t := {
  start_command : string;
  browser_file_name : string;
  debugging_port_command_line : string;
  webdriver_dir_command_line : string;
  headless_mode_command_line : string;
  mute_audio_command_line : string;
  debugging_port : option Z;
  webdriver_dir : option string;
  headless_mode : bool;
  mute_audio : bool;
}.
End StartArgs.

(** ** The world: object store, automation server, trace *)

(** What crosses the boundary to the automation library, in the words of
    the calls the module makes.  A command carries the session the handle
    was bound to when the command was sent.  [AssignSessionId] is the
    assignment to the handle's [session_id] attribute, recorded with the
    value it replaces. *)
Inductive event :=
| NewService (executable_path : string)
| NewFirefox (options : option loc) (service : option Service.t)
| NewRemote (command_executor : string) (options : loc)
| SetWindowPosition (session : string) (x y : Z)
| SetWindowSize (session : string) (width height : Z)
| ImplicitlyWait (session : string) (seconds : Z)
| SetPageLoadTimeout (session : string) (seconds : Z)
| CloseWindow (session : string)
| SwitchToWindow (session : string)
| AssignSessionId (old new : string).

Record world := {
  options_store : gmap loc Options.t;
  manager_store : gmap loc OptionsManager.t;
  start_args_store : gmap loc StartArgs.t;
  (** everything done at the boundary so far, oldest first *)
  trace : list event;
  (** the environment: [Some k] makes the call after the next [k] fail *)
  fail_at : option nat;
  (** the identifier the server gives to the n-th session it creates *)
  server_sessions : nat -> string;
  sessions_created : nat;
}.

Definition set_options_store (f : gmap loc Options.t -> gmap loc Options.t) (w : world) : world :=
  {| options_store := f (options_store w); manager_store := manager_store w;
     start_args_store := start_args_store w; trace := trace w;
     fail_at := fail_at w; server_sessions := server_sessions w;
     sessions_created := sessions_created w |}.

Definition set_manager_store (f : gmap loc OptionsManager.t -> gmap loc OptionsManager.t) (w : world) : world :=
  {| options_store := options_store w; manager_store := f (manager_store w);
     start_args_store := start_args_store w; trace := trace w;
     fail_at := fail_at w; server_sessions := server_sessions w;
     sessions_created := sessions_created w |}.

Definition set_start_args_store (f : gmap loc StartArgs.t -> gmap loc StartArgs.t) (w : world) : world :=
  {| options_store := options_store w; manager_store := manager_store w;
     start_args_store := f (start_args_store w); trace := trace w;
     fail_at := fail_at w; server_sessions := server_sessions w;
     sessions_created := sessions_created w |}.

Definition set_trace (f : list event -> list event) (w : world) : world :=
  {| options_store := options_store w; manager_store := manager_store w;
     start_args_store := start_args_store w; trace := f (trace w);
     fail_at := fail_at w; server_sessions := server_sessions w;
     sessions_created := sessions_created w |}.

Definition set_fail_at (k : option nat) (w : world) : world :=
  {| options_store := options_store w; manager_store := manager_store w;
     start_args_store := start_args_store w; trace := trace w;
     fail_at := k; server_sessions := server_sessions w;
     sessions_created := sessions_created w |}.

Definition set_sessions_created (n : nat) (w : world) : world :=
  {| options_store := options_store w; manager_store := manager_store w;
     start_args_store := start_args_store w; trace := trace w;
     fail_at := fail_at w; server_sessions := server_sessions w;
     sessions_created := n |}.

(** Nothing allocated, nothing done, no failure scheduled. *)
Definition initial_world (names : nat -> string) : world :=
  {| options_store := ∅; manager_store := ∅; start_args_store := ∅;
     trace := []; fail_at := None; server_sessions := names;
     sessions_created := 0%nat |}.

(** A side effect at the boundary that cannot fail (an attribute write). *)
Definition log (e : event) : M world unit :=
  modify (set_trace (fun t => t ++ [e])).

(** A call into the automation library.  The call is recorded when it is
    made; whether it returns is the environment's choice.  The module has
    no [try] statement, so the first call that raises ends the method
    that made it, and one scheduled failure describes every run. *)
Definition call (e : event) : M world unit :=
  log e;;
  let* w := get in
  match fail_at w with
  | None => ret tt
  | Some O => modify (set_fail_at None);; raise WebDriverException
  | Some (S k) => modify (set_fail_at (Some k))
  end.

(** The server opens a session and names it. *)
Definition new_session : M world string :=
  let* w := get in
  modify (set_sessions_created (S (sessions_created w)));;
  ret (server_sessions w (sessions_created w)).

(** *** selenium: options *)

(** [Options()]: a new object, at a location no object has. *)
Definition Options_new : M world loc :=
  let* w := get in
  let l := fresh (dom (options_store w)) in
  modify (set_options_store (insert l Options.empty));;
  ret l.

Definition read_options (l : loc) : M world Options.t :=
  let* w := get in
  match options_store w !! l with
  | Some o => ret o
  | None => raise Dangling
  end.

(** [options.add_argument(argument)]: selenium appends the argument to the
    list and refuses an empty one; it does not look for duplicates. *)
Definition add_argument (l : loc) (argument : string) : M world unit :=
  let* o := read_options l in
  if String.eqb argument "" then raise ValueError
  else
    modify (set_options_store (insert l
      {| Options.arguments := Options.arguments o ++ [argument];
         Options.debugger_address := Options.debugger_address o |})).

(** [options.debugger_address = address]. *)
Definition set_debugger_address (l : loc) (address : string) : M world unit :=
  let* o := read_options l in
  modify (set_options_store (insert l
    {| Options.arguments := Options.arguments o;
       Options.debugger_address := Some address |})).

(** *** selenium: service, drivers and their commands *)

(** [Service(executable_path=path)]. *)
Definition Service_new (path : string) : M world Service.t :=
  call (NewService path);;
  ret {| Service.executable_path := path |}.

(** [webdriver.Firefox(options=..., service=...)]: starts the browser and
    opens a session.  Both parameters accept [None]. *)
Definition Firefox_new (options : option loc) (service : option Service.t) : M world WebDriver.t :=
  call (NewFirefox options service);;
  let* sid := new_session in
  ret {| WebDriver.session_id := sid |}.

(** [webdriver.Remote(command_executor=..., options=...)]: opens a new
    session on the server at that address. *)
Definition Remote_new (command_executor : string) (options : loc) : M world WebDriver.t :=
  call (NewRemote command_executor options);;
  let* sid := new_session in
  ret {| WebDriver.session_id := sid |}.

Definition set_window_position (d : WebDriver.t) (x y : Z) : M world unit :=
  call (SetWindowPosition (WebDriver.session_id d) x y).

Definition set_window_size (d : WebDriver.t) (width height : Z) : M world unit :=
  call (SetWindowSize (WebDriver.session_id d) width height).

Definition implicitly_wait (d : WebDriver.t) (seconds : Z) : M world unit :=
  call (ImplicitlyWait (WebDriver.session_id d) seconds).

Definition set_page_load_timeout (d : WebDriver.t) (seconds : Z) : M world unit :=
  call (SetPageLoadTimeout (WebDriver.session_id d) seconds).

Definition read_manager (l : loc) : M world OptionsManager.t :=
  let* w := get in
  match manager_store w !! l with
  | Some m => ret m
  | None => raise Dangling
  end.

Definition read_start_args (l : loc) : M world StartArgs.t :=
  let* w := get in
  match start_args_store w !! l with
  | Some a => ret a
  | None => raise Dangling
  end.

(** ** The base classes *)

(** [BaseDriver.py], which defines [BrowserStartArgs],
    [BrowserOptionsManager], [BrowserWebDriver] and [EmptyWebDriver], is
    not in src.  What the subclasses of this file need from it is
    modelled from the specification, each definition saying so. *)

Module BrowserStartArgs.

(** Modelled from the spec: the fragment of an optional field, missing
    from src with [BrowserStartArgs].  "For each optional field present,
    substitute its value into that field's fixed template"; an absent
    field gives no fragment. *)
Definition optional_fragment (template : string) (value : option pyval) : result (list string) :=
  match value with
  | None => Ok []
  | Some v =>
      match format template v with
      | Ok s => Ok [s]
      | Raise e => Raise e
      end
  end.

(** Modelled from the spec: the fragment of a flag, missing from src with
    [BrowserStartArgs].  A flag's template takes no value; "fields absent
    or false are skipped". *)
Definition flag_fragment (template : string) (flag : bool) : list string :=
  if flag then [template] else [].

(** Modelled from the spec: the assembly of the start command, missing
    from src with [BrowserStartArgs].  "Executable path first, then
    debugging-port fragment, then profile-dir fragment, then headless
    fragment, then mute-audio fragment, each separated by a single
    space". *)
Definition assemble
    (browser_file_name debugging_port_command_line webdriver_dir_command_line
     headless_mode_command_line mute_audio_command_line : string)
    (webdriver_dir : option string) (debugging_port : option Z)
    (headless_mode mute_audio : bool) : result string :=
  match optional_fragment debugging_port_command_line (PyInt <$> debugging_port),
        optional_fragment webdriver_dir_command_line (PyStr <$> webdriver_dir) with
  | Ok port, Ok dir =>
      Ok (String.concat " "
            (browser_file_name :: port ++ dir
               ++ flag_fragment headless_mode_command_line headless_mode
               ++ flag_fragment mute_audio_command_line mute_audio))
  | Raise e, _ => Raise e
  | _, Raise e => Raise e
  end.

(** Modelled from the spec: [BrowserStartArgs.__init__], missing from src.
    It keeps its nine arguments as the attributes the class docstring of
    [FirefoxStartArgs] lists and assembles [start_command] from them. *)
Definition init
    (browser_file_name debugging_port_command_line webdriver_dir_command_line
     headless_mode_command_line mute_audio_command_line : string)
    (webdriver_dir : option string) (debugging_port : option Z)
    (headless_mode mute_audio : bool) : result StartArgs.t :=
  match assemble browser_file_name debugging_port_command_line
          webdriver_dir_command_line headless_mode_command_line
          mute_audio_command_line webdriver_dir debugging_port
          headless_mode mute_audio with
  | Ok command =>
      Ok {| StartArgs.start_command := command;
            StartArgs.browser_file_name := browser_file_name;
            StartArgs.debugging_port_command_line := debugging_port_command_line;
            StartArgs.webdriver_dir_command_line := webdriver_dir_command_line;
            StartArgs.headless_mode_command_line := headless_mode_command_line;
            StartArgs.mute_audio_command_line := mute_audio_command_line;
            StartArgs.debugging_port := debugging_port;
            StartArgs.webdriver_dir := webdriver_dir;
            StartArgs.headless_mode := headless_mode;
            StartArgs.mute_audio := mute_audio |}
  | Raise e => Raise e
  end.

End BrowserStartArgs.

Module BrowserOptionsManager.

(** Modelled from the spec: the single string a sequence of parts stands
    for, missing from src with [BrowserOptionsManager].  "userAgent given
    as [My, User, Agent] joins to the single-string form My User Agent". *)
Definition joined (parts : list string) : string := String.concat " " parts.

(** Modelled from the spec: the string form of a proxy, missing from src
    with [BrowserOptionsManager].  "userAgent, if present, is joined into
    one string before substitution into its template; proxy similarly";
    a proxy that is already one string is taken as it is. *)
Definition proxy_string (p : proxy_value) : string :=
  match p with
  | ProxyStr s => s
  | ProxyList l => joined l
  end.

(** Modelled from the spec: [BrowserOptionsManager.__init__], missing from
    src.  The options handle comes from the subclass's factory
    ([renew_webdriver_options], the spec's optionsFactory); each feature
    that is present is substituted into its template and put on the
    handle, the debugging port as the debugger address, user agent and
    proxy as arguments.  The new manager object is returned by its
    location. *)
Definition init (renew_webdriver_options : loc -> M world loc)
    (debugging_port_command user_agent_command proxy_command : string)
    (debugging_port : option Z) (user_agent : option (list string))
    (proxy : option proxy_value) : M world loc :=
  let* w := get in
  let self := fresh (dom (manager_store w)) in
  let* options := renew_webdriver_options self in
  match debugging_port with
  | Some port =>
      let* address := lift_result (format debugging_port_command (PyInt port)) in
      set_debugger_address options address
  | None => ret tt
  end;;
  match user_agent with
  | Some parts =>
      let* argument := lift_result (format user_agent_command (PyStr (joined parts))) in
      add_argument options argument
  | None => ret tt
  end;;
  match proxy with
  | Some p =>
      let* argument := lift_result (format proxy_command (PyStr (proxy_string p))) in
      add_argument options argument
  | None => ret tt
  end;;
  modify (set_manager_store (insert self
    {| OptionsManager.options := options;
       OptionsManager.debugging_port_command := debugging_port_command;
       OptionsManager.user_agent_command := user_agent_command;
       OptionsManager.proxy_command := proxy_command;
       OptionsManager.debugging_port := debugging_port;
       OptionsManager.user_agent := user_agent;
       OptionsManager.proxy := proxy |}));;
  ret self.

End BrowserOptionsManager.

(** ** class FirefoxOptionsManager (lines 14-76) *)

Module FirefoxOptionsManager.

(** [self.options]. *)
Definition options (self : loc) : M world loc :=
  let* m := read_manager self in
  ret (OptionsManager.options m).

(** Lines 65-76: [return Options()]. *)
Definition renew_webdriver_options (self : loc) : M world loc :=
  Options_new.

(** Lines 32-49: the three templates of Firefox, then the caller's
    arguments, handed to the base class. *)
Definition init (debugging_port : option Z) (user_agent : option (list string))
    (proxy : option proxy_value) : M world loc :=
  BrowserOptionsManager.init renew_webdriver_options
    "127.0.0.1:%d" "user-agent=%s" "--proxy-server=%s"
    debugging_port user_agent proxy.

(** Lines 51-63: four calls of [self.options.add_argument]. *)
Definition hide_automation (self : loc) : M world unit :=
  (let* o := options self in
   add_argument o "--disable-blink-features=AutomationControlled");;
  (let* o := options self in add_argument o "--no-first-run");;
  (let* o := options self in add_argument o "--no-service-autorun");;
  (let* o := options self in add_argument o "--password-store=basic").

(** [self.options.arguments]: the argument list on the handle the manager
    holds now. *)
Definition arguments (self : loc) : M world (list string) :=
  let* o := options self in
  let* handle := read_options o in
  ret (Options.arguments handle).

(** The arguments [hide_automation] adds, in its order. *)
Definition hidden_arguments : list string :=
  [ "--disable-blink-features=AutomationControlled"; "--no-first-run";
    "--no-service-autorun"; "--password-store=basic" ].

End FirefoxOptionsManager.

(** ** class FirefoxStartArgs (lines 79-128) *)

Module FirefoxStartArgs.

(** The template of line 121: --profile, a space, and %s between
    double quotes. *)
Definition profile_template : string :=
  "--profile " +:+ String dquote ("%s" +:+ String dquote "").

(** Lines 99-128: the executable name and the four templates of Firefox,
    then the caller's arguments, handed to the base class.  The new
    object is returned by its location. *)
Definition init (webdriver_dir : option string) (debugging_port : option Z)
    (headless_mode mute_audio : bool) : M world loc :=
  let* object :=
    lift_result
      (BrowserStartArgs.init "firefox.exe" "--remote-debugging-port %d"
         profile_template "--headless" "--mute-audio"
         webdriver_dir debugging_port headless_mode mute_audio) in
  let* w := get in
  let self := fresh (dom (start_args_store w)) in
  modify (set_start_args_store (insert self object));;
  ret self.

End FirefoxStartArgs.

(** ** Methods of a controller *)

(** A method of a controller runs on the controller's own attributes and
    on the world.  Both survive an exception, as assignments made before
    a Python exception do. *)
Definition lift_world {Self A} (m : M world A) : M (Self * world) A :=
  fun sw =>
    match m (snd sw) with
    | (r, w') => (r, (fst sw, w'))
    end.

Definition self_get {Self} : M (Self * world) Self :=
  fun sw => (Ok (fst sw), sw).

Definition self_set {Self} (f : Self -> Self) : M (Self * world) unit :=
  fun sw => (Ok tt, (f (fst sw), snd sw)).

(** [x.attr] where [x] may be [None]. *)
Definition not_none {S A} (x : option A) : M S A :=
  match x with
  | Some a => ret a
  | None => raise AttributeError
  end.

(** ** class FirefoxWebDriver (lines 131-234) *)

Module FirefoxWebDriver.

(** The attributes of the class docstring (lines 135-156) and the two
    timeouts [create_driver] reads.  The assemblers are references. *)
Record t := {
  browser_file_name : string;
  bsa_debugging_port_command_line : string;
  bsa_webdriver_dir_command_line : string;
  bsa_headless_mode_command_line : string;
  bsa_mute_audio_command_line : string;
  bom_debugging_port_command : string;
  bom_user_agent_command : string;
  bom_proxy_command : string;
  webdriver_path : string;
  webdriver_start_args : loc;
  webdriver_options_manager : loc;
  debugging_port : option Z;
  webdriver_dir : option string;
  headless_mode : bool;
  mute_audio : bool;
  user_agent : option (list string);
  proxy : option proxy_value;
  window_rect : WindowRect.t;
  base_implicitly_wait : Z;
  base_page_load_timeout : Z;
  webdriver_is_active : bool;
  webdriver_service : option Service.t;
  webdriver_options : option loc;
  driver : option WebDriver.t;
}.

(** [self] with the five attributes that the methods of this class
    assign; every other attribute is kept. *)
Definition assign (self : t) (start_args manager : loc)
    (service : option Service.t) (options : option loc)
    (handle : option WebDriver.t) : t :=
  {| browser_file_name := browser_file_name self;
     bsa_debugging_port_command_line := bsa_debugging_port_command_line self;
     bsa_webdriver_dir_command_line := bsa_webdriver_dir_command_line self;
     bsa_headless_mode_command_line := bsa_headless_mode_command_line self;
     bsa_mute_audio_command_line := bsa_mute_audio_command_line self;
     bom_debugging_port_command := bom_debugging_port_command self;
     bom_user_agent_command := bom_user_agent_command self;
     bom_proxy_command := bom_proxy_command self;
     webdriver_path := webdriver_path self;
     webdriver_start_args := start_args;
     webdriver_options_manager := manager;
     debugging_port := debugging_port self;
     webdriver_dir := webdriver_dir self;
     headless_mode := headless_mode self;
     mute_audio := mute_audio self;
     user_agent := user_agent self;
     proxy := proxy self;
     window_rect := window_rect self;
     base_implicitly_wait := base_implicitly_wait self;
     base_page_load_timeout := base_page_load_timeout self;
     webdriver_is_active := webdriver_is_active self;
     webdriver_service := service;
     webdriver_options := options;
     driver := handle |}.

Definition set_webdriver_start_args (a : loc) (self : t) : t :=
  assign self a (webdriver_options_manager self) (webdriver_service self)
    (webdriver_options self) (driver self).

Definition set_webdriver_options_manager (m : loc) (self : t) : t :=
  assign self (webdriver_start_args self) m (webdriver_service self)
    (webdriver_options self) (driver self).

Definition set_webdriver_service (s : option Service.t) (self : t) : t :=
  assign self (webdriver_start_args self) (webdriver_options_manager self) s
    (webdriver_options self) (driver self).

Definition set_webdriver_options (o : option loc) (self : t) : t :=
  assign self (webdriver_start_args self) (webdriver_options_manager self)
    (webdriver_service self) o (driver self).

Definition set_driver (d : option WebDriver.t) (self : t) : t :=
  assign self (webdriver_start_args self) (webdriver_options_manager self)
    (webdriver_service self) (webdriver_options self) d.

(** The defaults of the parameters [webdriver_start_args] and
    [webdriver_options_manager] (lines 167-168).  Python evaluates
    [FirefoxStartArgs()] and [FirefoxOptionsManager()] once, when the
    [def] is executed. *)
Definition define_init : M world (loc * loc) :=
  let* start_args := FirefoxStartArgs.init None None false false in
  let* manager := FirefoxOptionsManager.init None None None in
  ret (start_args, manager).

(** [BrowserWebDriver.__init__] is not in src: the constructor of this
    class is embedded for whatever the base constructor does with the
    fourteen values it is given. *)
Definition base_constructor : Type :=
  string -> string -> string -> string -> string -> string -> string -> string ->
  string -> loc -> loc -> Z -> Z -> WindowRect.t -> M world t.

Section Init.

Variable BrowserWebDriver_init : base_constructor.

(** Lines 164-202.  An argument left out is [None] here and takes its
    default: for the two assemblers the objects [define_init] returned,
    for the window rectangle the value of [WindowRect()]. *)
Definition init (default_start_args default_manager : loc) (default_rect : WindowRect.t)
    (webdriver_path : string)
    (webdriver_start_args webdriver_options_manager : option loc)
    (implicitly_wait page_load_timeout : option Z)
    (window_rect : option WindowRect.t) : M world t :=
  BrowserWebDriver_init
    "firefox.exe"
    "--remote-debugging-port %d"
    FirefoxStartArgs.profile_template
    "--headless"
    "--mute-audio"
    "127.0.0.1:%d"
    "user-agent=%s"
    "--proxy-server=%s"
    webdriver_path
    (default default_start_args webdriver_start_args)
    (default default_manager webdriver_options_manager)
    (default 5 implicitly_wait)
    (default 5 page_load_timeout)
    (default default_rect window_rect).

End Init.

(** [self.driver], for a method call on it. *)
Definition the_driver : M (t * world) WebDriver.t :=
  let* self := self_get in
  not_none (driver self).

(** Lines 204-221. *)
Definition create_driver : M (t * world) unit :=
  (* self.webdriver_service = Service(executable_path=self.webdriver_path) *)
  let* self := self_get in
  let* service := lift_world (Service_new (webdriver_path self)) in
  self_set (set_webdriver_service (Some service));;
  (* self.webdriver_options = self.webdriver_options_manager.options *)
  let* self := self_get in
  let* options := lift_world (FirefoxOptionsManager.options (webdriver_options_manager self)) in
  self_set (set_webdriver_options (Some options));;
  (* self.driver = webdriver.Firefox(options=..., service=...) *)
  let* self := self_get in
  let* handle :=
    lift_world (Firefox_new (webdriver_options self) (webdriver_service self)) in
  self_set (set_driver (Some handle));;
  (* self.driver.set_window_position(x=..., y=...) *)
  let* self := self_get in
  let* d := the_driver in
  lift_world (set_window_position d (WindowRect.x (window_rect self))
                (WindowRect.y (window_rect self)));;
  (* self.driver.set_window_size(width=..., height=...) *)
  let* self := self_get in
  let* d := the_driver in
  lift_world (set_window_size d (WindowRect.width (window_rect self))
                (WindowRect.height (window_rect self)));;
  (* self.driver.implicitly_wait(self.base_implicitly_wait) *)
  let* self := self_get in
  let* d := the_driver in
  lift_world (implicitly_wait d (base_implicitly_wait self));;
  (* self.driver.set_page_load_timeout(self.base_page_load_timeout) *)
  let* self := self_get in
  let* d := the_driver in
  lift_world (set_page_load_timeout d (base_page_load_timeout self)).

(** Lines 223-234. *)
Definition renew_bas_and_bom : M (t * world) unit :=
  let* self := self_get in
  let* start_args :=
    lift_world (FirefoxStartArgs.init (webdriver_dir self) (debugging_port self)
                  (headless_mode self) (mute_audio self)) in
  self_set (set_webdriver_start_args start_args);;
  let* self := self_get in
  let* manager :=
    lift_world (FirefoxOptionsManager.init (debugging_port self) (user_agent self)
                  (proxy self)) in
  self_set (set_webdriver_options_manager manager).

(** [self.webdriver_start_args.start_command]. *)
Definition start_command : M (t * world) string :=
  let* self := self_get in
  let* a := lift_world (read_start_args (webdriver_start_args self)) in
  ret (StartArgs.start_command a).

End FirefoxWebDriver.

(** ** class FirefoxRemoteWebDriver (lines 237-311) *)

Module FirefoxRemoteWebDriver.

(** The attributes of the class docstring (lines 241-247). *)
Record t := {
  base_implicitly_wait : Z;
  base_page_load_timeout : Z;
  driver : option WebDriver.t;
  command_executor : string;
  session_id : string;
  webdriver_options_manager : loc;
}.

Definition set_command_executor (c : string) (self : t) : t :=
  {| base_implicitly_wait := base_implicitly_wait self;
     base_page_load_timeout := base_page_load_timeout self;
     driver := driver self;
     command_executor := c;
     session_id := session_id self;
     webdriver_options_manager := webdriver_options_manager self |}.

Definition set_session_id (s : string) (self : t) : t :=
  {| base_implicitly_wait := base_implicitly_wait self;
     base_page_load_timeout := base_page_load_timeout self;
     driver := driver self;
     command_executor := command_executor self;
     session_id := s;
     webdriver_options_manager := webdriver_options_manager self |}.

Definition set_driver (d : option WebDriver.t) (self : t) : t :=
  {| base_implicitly_wait := base_implicitly_wait self;
     base_page_load_timeout := base_page_load_timeout self;
     driver := d;
     command_executor := command_executor self;
     session_id := session_id self;
     webdriver_options_manager := webdriver_options_manager self |}.

(** The default of the parameter [webdriver_options_manager] (line 258).
    Python evaluates [FirefoxOptionsManager()] once, when the [def] is
    executed; the parameter's default is the object made then. *)
Definition define_init : M world loc :=
  FirefoxOptionsManager.init None None None.

(** Modelled from the spec: [EmptyWebDriver.__init__], missing from src.
    It keeps the two timeouts; they become the attributes
    [base_implicitly_wait] and [base_page_load_timeout] that
    [create_driver] reads. *)
Definition EmptyWebDriver_init (implicitly_wait page_load_timeout : Z) : Z * Z :=
  (implicitly_wait, page_load_timeout).

(** Lines 254-280.  An argument left out is [None] here and takes its
    default; [default_manager] is the object [define_init] returned. *)
Definition init (default_manager : loc) (command_executor session_id : string)
    (webdriver_options_manager : option loc)
    (implicitly_wait page_load_timeout : option Z) : t :=
  let base := EmptyWebDriver_init (default 5 implicitly_wait)
                (default 5 page_load_timeout) in
  {| base_implicitly_wait := fst base;
     base_page_load_timeout := snd base;
     command_executor := command_executor;
     session_id := session_id;
     webdriver_options_manager := default default_manager webdriver_options_manager;
     driver := None |}.

Definition the_driver : M (t * world) WebDriver.t :=
  let* self := self_get in
  not_none (driver self).

(** Modelled from the spec: [EmptyWebDriver.close_window], missing from
    src.  "Command that throwaway session to close its window": one
    close-window command through the handle, to the session the handle
    is bound to. *)
Definition close_window : M (t * world) unit :=
  let* d := the_driver in
  lift_world (call (CloseWindow (WebDriver.session_id d))).

(** Modelled from the spec: [EmptyWebDriver.switch_to_window], missing
    from src.  "Switch window focus to the (only) open window of the
    target session": one switch-to-window command through the handle. *)
Definition switch_to_window : M (t * world) unit :=
  let* d := the_driver in
  lift_world (call (SwitchToWindow (WebDriver.session_id d))).

(** Lines 282-311. *)
Definition create_driver (command_executor session_id : option string) : M (t * world) unit :=
  (* if command_executor is not None: self.command_executor = command_executor *)
  match command_executor with
  | Some c => self_set (set_command_executor c)
  | None => ret tt
  end;;
  (* if session_id is not None: self.session_id = session_id *)
  match session_id with
  | Some s => self_set (set_session_id s)
  | None => ret tt
  end;;
  (* self.driver = webdriver.Remote(command_executor=..., options=...) *)
  let* self := self_get in
  let* options := lift_world (FirefoxOptionsManager.options (webdriver_options_manager self)) in
  let* handle := lift_world (Remote_new (FirefoxRemoteWebDriver.command_executor self) options) in
  self_set (set_driver (Some handle));;
  (* self.close_window() *)
  close_window;;
  (* self.driver.session_id = self.session_id *)
  let* self := self_get in
  let* d := the_driver in
  lift_world (log (AssignSessionId (WebDriver.session_id d)
                     (FirefoxRemoteWebDriver.session_id self)));;
  self_set (set_driver (Some {| WebDriver.session_id := FirefoxRemoteWebDriver.session_id self |}));;
  (* self.switch_to_window() *)
  switch_to_window;;
  (* self.driver.implicitly_wait(self.base_implicitly_wait) *)
  let* self := self_get in
  let* d := the_driver in
  lift_world (implicitly_wait d (base_implicitly_wait self));;
  (* self.driver.set_page_load_timeout(self.base_page_load_timeout) *)
  let* self := self_get in
  let* d := the_driver in
  lift_world (set_page_load_timeout d (base_page_load_timeout self)).

End FirefoxRemoteWebDriver.

(** ** The module body *)

(** Importing the module executes its class statements in order; the only
    effects are the default objects of the two [__init__] signatures. *)
Record defaults := {
  local_start_args_default : loc;
  local_options_manager_default : loc;
  remote_options_manager_default : loc;
}.

Definition module_body : M world defaults :=
  let* local := FirefoxWebDriver.define_init in
  let* remote := FirefoxRemoteWebDriver.define_init in
  ret {| local_start_args_default := fst local;
         local_options_manager_default := snd local;
         remote_options_manager_default := remote |}.

(** ** Expected values *)

(** The options a Firefox manager is built with: what the three features,
    where present, leave on a new handle. *)
Definition built_options (debugging_port : option Z)
    (user_agent : option (list string)) (proxy : option proxy_value) : Options.t :=
  {| Options.arguments :=
       match user_agent with
       | Some parts => ["user-agent=" +:+ BrowserOptionsManager.joined parts]
       | None => []
       end ++
       match proxy with
       | Some p => ["--proxy-server=" +:+ BrowserOptionsManager.proxy_string p]
       | None => []
       end;
     Options.debugger_address :=
       (fun port => "127.0.0.1:" +:+ pretty port) <$> debugging_port |}.

Definition built_manager (options : loc) (debugging_port : option Z)
    (user_agent : option (list string)) (proxy : option proxy_value) : OptionsManager.t :=
  {| OptionsManager.options := options;
     OptionsManager.debugging_port_command := "127.0.0.1:%d";
     OptionsManager.user_agent_command := "user-agent=%s";
     OptionsManager.proxy_command := "--proxy-server=%s";
     OptionsManager.debugging_port := debugging_port;
     OptionsManager.user_agent := user_agent;
     OptionsManager.proxy := proxy |}.

(** The start command of Firefox for each launch configuration. *)
Definition built_command (webdriver_dir : option string) (debugging_port : option Z)
    (headless_mode mute_audio : bool) : string :=
  String.concat " "
    ("firefox.exe"
       :: match debugging_port with
          | Some port => ["--remote-debugging-port " +:+ pretty port]
          | None => []
          end
       ++ match webdriver_dir with
          | Some dir => ["--profile " +:+ String dquote (dir +:+ String dquote "")]
          | None => []
          end
       ++ (if headless_mode then ["--headless"] else [])
       ++ (if mute_audio then ["--mute-audio"] else [])).

Definition built_start_args (webdriver_dir : option string) (debugging_port : option Z)
    (headless_mode mute_audio : bool) : StartArgs.t :=
  {| StartArgs.start_command :=
       built_command webdriver_dir debugging_port headless_mode mute_audio;
     StartArgs.browser_file_name := "firefox.exe";
     StartArgs.debugging_port_command_line := "--remote-debugging-port %d";
     StartArgs.webdriver_dir_command_line := FirefoxStartArgs.profile_template;
     StartArgs.headless_mode_command_line := "--headless";
     StartArgs.mute_audio_command_line := "--mute-audio";
     StartArgs.debugging_port := debugging_port;
     StartArgs.webdriver_dir := webdriver_dir;
     StartArgs.headless_mode := headless_mode;
     StartArgs.mute_audio := mute_audio |}.

(** The calls of [FirefoxWebDriver.create_driver], in the order of its
    statements. *)
Definition local_calls (self : FirefoxWebDriver.t) (options : loc) (session : string) : list event :=
  let service := {| Service.executable_path := FirefoxWebDriver.webdriver_path self |} in
  let rect := FirefoxWebDriver.window_rect self in
  [ NewService (FirefoxWebDriver.webdriver_path self);
    NewFirefox (Some options) (Some service);
    SetWindowPosition session (WindowRect.x rect) (WindowRect.y rect);
    SetWindowSize session (WindowRect.width rect) (WindowRect.height rect);
    ImplicitlyWait session (FirefoxWebDriver.base_implicitly_wait self);
    SetPageLoadTimeout session (FirefoxWebDriver.base_page_load_timeout self) ].

(** The calls and the rebinding of [FirefoxRemoteWebDriver.create_driver],
    in the order of its statements: [throwaway] is the session the server
    opens for the new handle, [target] the stored session. *)
Definition remote_calls (command_executor : string) (options : loc)
    (throwaway target : string) (wait timeout : Z) : list event :=
  [ NewRemote command_executor options;
    CloseWindow throwaway;
    AssignSessionId throwaway target;
    SwitchToWindow target;
    ImplicitlyWait target wait;
    SetPageLoadTimeout target timeout ].

Definition is_close_window (e : event) : bool :=
  match e with CloseWindow _ => true | _ => false end.

Definition is_rebind (e : event) : bool :=
  match e with AssignSessionId _ _ => true | _ => false end.

Definition is_switch_to_window (e : event) : bool :=
  match e with SwitchToWindow _ => true | _ => false end.

(** In [t], every event that is a [Q] has an event that is a [P] strictly
    before it. *)
Definition preceded_by (P Q : event -> Prop) (t : list event) : Prop :=
  forall (j : nat) (e : event),
    t !! j = Some e -> Q e ->
    exists (i : nat) (e' : event), (i < j)%nat /\ t !! i = Some e' /\ P e'.

(** ** A concrete scenario *)

(** The server of the scenario names its sessions throwaway-0,
    throwaway-1 and so on. *)
Definition example_names (n : nat) : string := "throwaway-" +:+ pretty n.

(** The world right after the module has been imported. *)
Definition example_import : result defaults * world :=
  module_body (initial_world example_names).

Definition example_world : world := snd example_import.

Definition example_defaults : defaults :=
  match fst example_import with
  | Ok d => d
  | Raise _ =>
      {| local_start_args_default := 0%nat;
         local_options_manager_default := 0%nat;
         remote_options_manager_default := 0%nat |}
  end.

(** [FirefoxRemoteWebDriver(command_executor="http://127.0.0.1:4444",
    session_id="abc123")]. *)
Definition example_remote : FirefoxRemoteWebDriver.t :=
  FirefoxRemoteWebDriver.init (remote_options_manager_default example_defaults)
    "http://127.0.0.1:4444" "abc123" None None None.

(** A second controller made the same way, for another session. *)
Definition example_remote' : FirefoxRemoteWebDriver.t :=
  FirefoxRemoteWebDriver.init (remote_options_manager_default example_defaults)
    "http://127.0.0.1:4444" "def456" None None None.

(** A local controller in the state the docstring's usage example starts
    from: the strings of lines 188-195, the webdriver path
    /path/to/geckodriver, the default assemblers of the module, timeouts
    of five seconds, a window rectangle, and no service, options or
    driver yet. *)
Definition example_local : FirefoxWebDriver.t :=
  {| FirefoxWebDriver.browser_file_name := "firefox.exe";
     FirefoxWebDriver.bsa_debugging_port_command_line := "--remote-debugging-port %d";
     FirefoxWebDriver.bsa_webdriver_dir_command_line := FirefoxStartArgs.profile_template;
     FirefoxWebDriver.bsa_headless_mode_command_line := "--headless";
     FirefoxWebDriver.bsa_mute_audio_command_line := "--mute-audio";
     FirefoxWebDriver.bom_debugging_port_command := "127.0.0.1:%d";
     FirefoxWebDriver.bom_user_agent_command := "user-agent=%s";
     FirefoxWebDriver.bom_proxy_command := "--proxy-server=%s";
     FirefoxWebDriver.webdriver_path := "/path/to/geckodriver";
     FirefoxWebDriver.webdriver_start_args := local_start_args_default example_defaults;
     FirefoxWebDriver.webdriver_options_manager :=
       local_options_manager_default example_defaults;
     FirefoxWebDriver.debugging_port := None;
     FirefoxWebDriver.webdriver_dir := None;
     FirefoxWebDriver.headless_mode := false;
     FirefoxWebDriver.mute_audio := false;
     FirefoxWebDriver.user_agent := None;
     FirefoxWebDriver.proxy := None;
     FirefoxWebDriver.window_rect :=
       {| WindowRect.x := 0; WindowRect.y := 0;
          WindowRect.width := 1920; WindowRect.height := 1080 |};
     FirefoxWebDriver.base_implicitly_wait := 5;
     FirefoxWebDriver.base_page_load_timeout := 5;
     FirefoxWebDriver.webdriver_is_active := false;
     FirefoxWebDriver.webdriver_service := None;
     FirefoxWebDriver.webdriver_options := None;
     FirefoxWebDriver.driver := None |}.

(** ** Further observations *)

(** [m] run [n] times in a row. *)
Fixpoint times {S} (n : nat) (m : M S unit) : M S unit :=
  match n with
  | O => ret tt
  | S k => m;; times k m
  end.

(** The session a command is sent to.  Constructing a service or a
    driver is not addressed to a session, and neither is the assignment
    of the handle's attribute. *)
Definition event_session (e : event) : option string :=
  match e with
  | SetWindowPosition s _ _ => Some s
  | SetWindowSize s _ _ => Some s
  | ImplicitlyWait s _ => Some s
  | SetPageLoadTimeout s _ => Some s
  | CloseWindow s => Some s
  | SwitchToWindow s => Some s
  | NewService _ | NewFirefox _ _ | NewRemote _ _ | AssignSessionId _ _ => None
  end.

(** The events only a local controller produces: a service, a browser
    process, a window rectangle. *)
Definition is_local_only (e : event) : bool :=
  match e with
  | NewService _ | NewFirefox _ _ | SetWindowPosition _ _ _ | SetWindowSize _ _ _ => true
  | _ => false
  end.

(** Assignments to the six configuration attributes of a local
    controller, as a caller makes them after construction:
    [controller.debugging_port = ...] and so on. *)
Definition reconfigured (debugging_port : option Z) (webdriver_dir : option string)
    (headless_mode mute_audio : bool) (user_agent : option (list string))
    (proxy : option proxy_value) (self : FirefoxWebDriver.t) : FirefoxWebDriver.t :=
  {| FirefoxWebDriver.browser_file_name := FirefoxWebDriver.browser_file_name self;
     FirefoxWebDriver.bsa_debugging_port_command_line :=
       FirefoxWebDriver.bsa_debugging_port_command_line self;
     FirefoxWebDriver.bsa_webdriver_dir_command_line :=
       FirefoxWebDriver.bsa_webdriver_dir_command_line self;
     FirefoxWebDriver.bsa_headless_mode_command_line :=
       FirefoxWebDriver.bsa_headless_mode_command_line self;
     FirefoxWebDriver.bsa_mute_audio_command_line :=
       FirefoxWebDriver.bsa_mute_audio_command_line self;
     FirefoxWebDriver.bom_debugging_port_command :=
       FirefoxWebDriver.bom_debugging_port_command self;
     FirefoxWebDriver.bom_user_agent_command := FirefoxWebDriver.bom_user_agent_command self;
     FirefoxWebDriver.bom_proxy_command := FirefoxWebDriver.bom_proxy_command self;
     FirefoxWebDriver.webdriver_path := FirefoxWebDriver.webdriver_path self;
     FirefoxWebDriver.webdriver_start_args := FirefoxWebDriver.webdriver_start_args self;
     FirefoxWebDriver.webdriver_options_manager :=
       FirefoxWebDriver.webdriver_options_manager self;
     FirefoxWebDriver.debugging_port := debugging_port;
     FirefoxWebDriver.webdriver_dir := webdriver_dir;
     FirefoxWebDriver.headless_mode := headless_mode;
     FirefoxWebDriver.mute_audio := mute_audio;
     FirefoxWebDriver.user_agent := user_agent;
     FirefoxWebDriver.proxy := proxy;
     FirefoxWebDriver.window_rect := FirefoxWebDriver.window_rect self;
     FirefoxWebDriver.base_implicitly_wait := FirefoxWebDriver.base_implicitly_wait self;
     FirefoxWebDriver.base_page_load_timeout := FirefoxWebDriver.base_page_load_timeout self;
     FirefoxWebDriver.webdriver_is_active := FirefoxWebDriver.webdriver_is_active self;
     FirefoxWebDriver.webdriver_service := FirefoxWebDriver.webdriver_service self;
     FirefoxWebDriver.webdriver_options := FirefoxWebDriver.webdriver_options self;
     FirefoxWebDriver.driver := FirefoxWebDriver.driver self |}.

(** * Properties *)

(** ** Strings and templates *)

Lemma append_empty_r (s : string) : s +:+ "" = s.
Proof.
  induction s as [|c s IH]; [reflexivity |].
  change (String c (s +:+ "") = String c s). now rewrite IH.
Qed.

Lemma append_cons (c : ascii) (s t : string) :
  String c s +:+ t = String c (s +:+ t).
Proof. reflexivity. Qed.

Lemma append_empty_l (s : string) : "" +:+ s = s.
Proof. reflexivity. Qed.

Lemma append_assoc (s t u : string) : (s +:+ t) +:+ u = s +:+ (t +:+ u).
Proof.
  induction s as [|c s IH]; [reflexivity |].
  rewrite !append_cons. now rewrite IH.
Qed.

(** Both sides of an equation between concatenations, as one string with
    the unknown parts in place. *)
Ltac flatten_strings :=
  repeat first [ rewrite append_assoc | rewrite append_cons | rewrite append_empty_l ].

Lemma nonempty_append (c : ascii) (s t : string) : String c s +:+ t <> "".
Proof. discriminate. Qed.

Lemma format_debugging_port (port : Z) :
  format "--remote-debugging-port %d" (PyInt port)
  = Ok ("--remote-debugging-port " +:+ pretty port).
Proof. unfold format. simpl. now rewrite append_empty_r. Qed.

Lemma format_profile (dir : string) :
  format FirefoxStartArgs.profile_template (PyStr dir)
  = Ok ("--profile " +:+ String dquote (dir +:+ String dquote "")).
Proof. reflexivity. Qed.

Lemma format_address (port : Z) :
  format "127.0.0.1:%d" (PyInt port) = Ok ("127.0.0.1:" +:+ pretty port).
Proof. unfold format. simpl. now rewrite append_empty_r. Qed.

Lemma format_user_agent (s : string) :
  format "user-agent=%s" (PyStr s) = Ok ("user-agent=" +:+ s).
Proof. unfold format. simpl. now rewrite append_empty_r. Qed.

Lemma format_proxy (s : string) :
  format "--proxy-server=%s" (PyStr s) = Ok ("--proxy-server=" +:+ s).
Proof. unfold format. simpl. now rewrite append_empty_r. Qed.

(** ** Equations of the primitives *)

Lemma fresh_options_unused (w : world) :
  options_store w !! fresh (dom (options_store w)) = None.
Proof. apply not_elem_of_dom, is_fresh. Qed.

Lemma Options_new_eq (w : world) :
  Options_new w =
    (Ok (fresh (dom (options_store w))),
     set_options_store (insert (fresh (dom (options_store w))) Options.empty) w).
Proof. reflexivity. Qed.

Lemma read_options_eq (l : loc) (o : Options.t) (w : world) :
  options_store w !! l = Some o -> read_options l w = (Ok o, w).
Proof. intros H. unfold read_options, bind, get. now rewrite H. Qed.

Lemma add_argument_eq (l : loc) (argument : string) (o : Options.t) (w : world) :
  options_store w !! l = Some o ->
  argument <> "" ->
  add_argument l argument w =
    (Ok tt,
     set_options_store (insert l
       {| Options.arguments := Options.arguments o ++ [argument];
          Options.debugger_address := Options.debugger_address o |}) w).
Proof.
  intros H Hne. unfold add_argument, bind.
  rewrite (read_options_eq l o w H).
  apply String.eqb_neq in Hne. now rewrite Hne.
Qed.

Lemma set_debugger_address_eq (l : loc) (address : string) (o : Options.t) (w : world) :
  options_store w !! l = Some o ->
  set_debugger_address l address w =
    (Ok tt,
     set_options_store (insert l
       {| Options.arguments := Options.arguments o;
          Options.debugger_address := Some address |}) w).
Proof.
  intros H. unfold set_debugger_address, bind.
  now rewrite (read_options_eq l o w H).
Qed.

Lemma read_start_args_eq (l : loc) (a : StartArgs.t) (w : world) :
  start_args_store w !! l = Some a -> read_start_args l w = (Ok a, w).
Proof. intros H. unfold read_start_args, bind, get. now rewrite H. Qed.

(** ** Running a program *)

Lemma bind_Ok {S A B} (m : M S A) (k : A -> M S B) (s s' : S) (a : A) :
  m s = (Ok a, s') -> bind m k s = k a s'.
Proof. intros H. unfold bind. now rewrite H. Qed.

Lemma lift_world_eq {Self A} (p : M world A) (self : Self) (w w' : world) (r : result A) :
  p w = (r, w') -> lift_world p (self, w) = (r, (self, w')).
Proof. intros H. unfold lift_world. cbn. now rewrite H. Qed.

(** One statement of a program over the store: the statement's equation
    gives its result, looked-up locations are the ones just written. *)
Ltac store_lookup := cbn; first [ apply lookup_insert_eq | eassumption ].

Ltac run_store :=
  repeat
    (erewrite bind_Ok;
     [| first
          [ reflexivity
          | apply Options_new_eq
          | apply set_debugger_address_eq; store_lookup
          | apply add_argument_eq; [ store_lookup | apply nonempty_append ] ] ]).

Create HintDb py discriminated.
#[local] Hint Unfold
  FirefoxWebDriver.create_driver FirefoxWebDriver.the_driver
  FirefoxRemoteWebDriver.create_driver FirefoxRemoteWebDriver.the_driver
  FirefoxRemoteWebDriver.close_window FirefoxRemoteWebDriver.switch_to_window
  FirefoxOptionsManager.options read_manager
  Service_new Firefox_new Remote_new new_session
  set_window_position set_window_size implicitly_wait set_page_load_timeout
  call log lift_world self_get self_set not_none
  bind get modify ret raise
  set_trace set_fail_at set_sessions_created : py.

Ltac run_controller H :=
  autounfold with py; cbn; rewrite ?H; cbn.

Ltac trace_prefix :=
  rewrite <- ?app_assoc;
  split; [reflexivity | eexists; reflexivity].

(** ** The constructors *)

Lemma FirefoxOptionsManager_init_eq (debugging_port : option Z)
    (user_agent : option (list string)) (proxy : option proxy_value) (w : world) :
  FirefoxOptionsManager.init debugging_port user_agent proxy w =
    (Ok (fresh (dom (manager_store w))),
     set_manager_store
       (insert (fresh (dom (manager_store w)))
          (built_manager (fresh (dom (options_store w))) debugging_port user_agent proxy))
       (set_options_store
          (insert (fresh (dom (options_store w)))
             (built_options debugging_port user_agent proxy)) w)).
Proof.
  unfold FirefoxOptionsManager.init, BrowserOptionsManager.init,
    FirefoxOptionsManager.renew_webdriver_options.
  destruct debugging_port as [port|], user_agent as [parts|], proxy as [p|];
    rewrite ?format_address, ?format_user_agent, ?format_proxy;
    run_store;
    unfold set_manager_store, set_options_store; cbn;
    rewrite ?insert_insert_eq; reflexivity.
Qed.

Lemma assemble_firefox (webdriver_dir : option string) (debugging_port : option Z)
    (headless_mode mute_audio : bool) :
  BrowserStartArgs.assemble "firefox.exe" "--remote-debugging-port %d"
    FirefoxStartArgs.profile_template "--headless" "--mute-audio"
    webdriver_dir debugging_port headless_mode mute_audio
  = Ok (built_command webdriver_dir debugging_port headless_mode mute_audio).
Proof.
  unfold BrowserStartArgs.assemble, BrowserStartArgs.optional_fragment.
  destruct debugging_port as [port|], webdriver_dir as [dir|]; cbn [fmap option_fmap option_map];
    rewrite ?format_debugging_port, ?format_profile;
    destruct headless_mode, mute_audio; reflexivity.
Qed.

Lemma FirefoxStartArgs_init_eq (webdriver_dir : option string) (debugging_port : option Z)
    (headless_mode mute_audio : bool) (w : world) :
  FirefoxStartArgs.init webdriver_dir debugging_port headless_mode mute_audio w =
    (Ok (fresh (dom (start_args_store w))),
     set_start_args_store
       (insert (fresh (dom (start_args_store w)))
          (built_start_args webdriver_dir debugging_port headless_mode mute_audio)) w).
Proof.
  unfold FirefoxStartArgs.init, BrowserStartArgs.init.
  rewrite assemble_firefox. reflexivity.
Qed.

Example example_import_ok :
  fst example_import
  = Ok {| local_start_args_default := 0%nat;
          local_options_manager_default := 0%nat;
          remote_options_manager_default := 1%nat |}.
Proof. reflexivity. Qed.

Example example_remote_manager :
  manager_store example_world !! FirefoxRemoteWebDriver.webdriver_options_manager example_remote
  = Some (built_manager 1%nat None None None).
Proof. reflexivity. Qed.

(** ** FirefoxStartArgs: the start command *)

(** C6: with debugging port, profile directory, headless and mute-audio
    all present, the start command of [FirefoxStartArgs] is the executable
    path, the debugging-port fragment, the profile-directory fragment, the
    headless fragment and the mute-audio fragment, in this order and
    joined by single spaces, where the two valued fragments are their
    templates applied to the values and the two flags are their templates
    as they stand. *)
Theorem start_command_all_fragments_in_order (dir : string) (port : Z) (w : world) :
  exists (self : loc) (object : StartArgs.t) (w' : world),
    FirefoxStartArgs.init (Some dir) (Some port) true true w = (Ok self, w') /\
    start_args_store w' !! self = Some object /\
    format (StartArgs.debugging_port_command_line object) (PyInt port)
      = Ok ("--remote-debugging-port " +:+ pretty port) /\
    format (StartArgs.webdriver_dir_command_line object) (PyStr dir)
      = Ok ("--profile " +:+ String dquote (dir +:+ String dquote "")) /\
    StartArgs.headless_mode_command_line object = "--headless" /\
    StartArgs.mute_audio_command_line object = "--mute-audio" /\
    StartArgs.start_command object
      = String.concat " "
          [ "firefox.exe";
            "--remote-debugging-port " +:+ pretty port;
            "--profile " +:+ String dquote (dir +:+ String dquote "");
            "--headless";
            "--mute-audio" ] /\
    StartArgs.start_command object
      = "firefox.exe --remote-debugging-port " +:+ pretty port
          +:+ " --profile " +:+ String dquote (dir +:+ String dquote " --headless --mute-audio").
Proof.
  eexists _, _, _. split; [apply FirefoxStartArgs_init_eq |].
  split; [cbn; apply lookup_insert_eq |].
  split; [apply format_debugging_port |].
  split; [apply format_profile |].
  split; [reflexivity |]. split; [reflexivity |]. split; [reflexivity |].
  cbn [built_start_args StartArgs.start_command]. unfold built_command.
  cbn [String.concat app]. flatten_strings. reflexivity.
Qed.

(** C7: with every optional field absent or false the start command is
    exactly the executable path: for any executable path and templates
    given to the base class, and for Firefox the string firefox.exe. *)
Theorem start_command_without_options (w : world) :
  (forall path port_template dir_template headless_template mute_template : string,
     BrowserStartArgs.assemble path port_template dir_template headless_template
       mute_template None None false false = Ok path) /\
  exists (self : loc) (object : StartArgs.t) (w' : world),
    FirefoxStartArgs.init None None false false w = (Ok self, w') /\
    start_args_store w' !! self = Some object /\
    StartArgs.start_command object = "firefox.exe".
Proof.
  split; [reflexivity |].
  eexists _, _, _. split; [apply FirefoxStartArgs_init_eq |].
  split; [cbn; apply lookup_insert_eq | reflexivity].
Qed.

(** ** FirefoxOptionsManager: user agent and proxy *)

(** C8: a user agent given as a list of parts is joined with single
    spaces into one string, and that string is substituted into the
    template user-agent=%s; My, User, Agent gives the argument
    user-agent=My User Agent.  A proxy given as a list is joined the same
    way before it is substituted into its template. *)
Theorem user_agent_joined_before_substitution
    (port : option Z) (parts : list string) (proxy : option proxy_value) (w : world) :
  BrowserOptionsManager.joined ["My"; "User"; "Agent"] = "My User Agent" /\
  format "user-agent=%s" (PyStr (BrowserOptionsManager.joined ["My"; "User"; "Agent"]))
    = Ok "user-agent=My User Agent" /\
  exists (self : loc) (m : OptionsManager.t) (o : Options.t) (w' : world),
    FirefoxOptionsManager.init port (Some parts) proxy w = (Ok self, w') /\
    manager_store w' !! self = Some m /\
    options_store w' !! OptionsManager.options m = Some o /\
    Options.arguments o =
      ("user-agent=" +:+ String.concat " " parts)
        :: match proxy with
           | None => []
           | Some (ProxyStr s) => ["--proxy-server=" +:+ s]
           | Some (ProxyList l) => ["--proxy-server=" +:+ String.concat " " l]
           end.
Proof.
  split; [reflexivity |]. split; [reflexivity |].
  eexists _, _, _, _. split; [apply FirefoxOptionsManager_init_eq |].
  split; [cbn; apply lookup_insert_eq |].
  split; [cbn; apply lookup_insert_eq |].
  destruct proxy as [[s|l]|]; reflexivity.
Qed.

(** ** FirefoxOptionsManager: hide_automation and renew_webdriver_options *)

Lemma options_eq (self : loc) (m : OptionsManager.t) (w : world) :
  manager_store w !! self = Some m ->
  FirefoxOptionsManager.options self w = (Ok (OptionsManager.options m), w).
Proof.
  intros H. unfold FirefoxOptionsManager.options, read_manager, bind, get.
  now rewrite H.
Qed.

Lemma arguments_eq (self : loc) (m : OptionsManager.t) (o : Options.t) (w : world) :
  manager_store w !! self = Some m ->
  options_store w !! OptionsManager.options m = Some o ->
  FirefoxOptionsManager.arguments self w = (Ok (Options.arguments o), w).
Proof.
  intros Hm Ho. unfold FirefoxOptionsManager.arguments.
  erewrite bind_Ok by (apply options_eq; eassumption).
  erewrite bind_Ok by (apply read_options_eq; eassumption).
  reflexivity.
Qed.

(** One statement [self.options.add_argument(argument)]. *)
Lemma add_argument_statement (self : loc) (argument : string)
    (m : OptionsManager.t) (o : Options.t) (w : world) :
  manager_store w !! self = Some m ->
  options_store w !! OptionsManager.options m = Some o ->
  argument <> "" ->
  (let* h := FirefoxOptionsManager.options self in add_argument h argument) w =
    (Ok tt,
     set_options_store (insert (OptionsManager.options m)
       {| Options.arguments := Options.arguments o ++ [argument];
          Options.debugger_address := Options.debugger_address o |}) w).
Proof.
  intros Hm Ho Hne.
  erewrite bind_Ok by (apply options_eq; exact Hm).
  now apply add_argument_eq.
Qed.

Lemma hide_automation_eq (self : loc) (m : OptionsManager.t) (o : Options.t) (w : world) :
  manager_store w !! self = Some m ->
  options_store w !! OptionsManager.options m = Some o ->
  FirefoxOptionsManager.hide_automation self w =
    (Ok tt,
     set_options_store
       (insert (OptionsManager.options m)
          {| Options.arguments :=
               Options.arguments o ++ FirefoxOptionsManager.hidden_arguments;
             Options.debugger_address := Options.debugger_address o |}) w).
Proof.
  intros Hm Ho. unfold FirefoxOptionsManager.hide_automation.
  do 3 (erewrite bind_Ok;
        [| eapply add_argument_statement;
           [ exact Hm | store_lookup | discriminate ] ]).
  erewrite add_argument_statement;
    [| exact Hm | store_lookup | discriminate ].
  unfold set_options_store; cbn.
  rewrite !insert_insert_eq, <- !app_assoc. reflexivity.
Qed.

(** C3, as the code has it: [hide_automation] appends its four arguments
    to the handle's argument list each time it is applied.  After two
    applications the list is the list after one application followed by
    the same four arguments again; the two lists have the same members,
    and the second is four entries longer. *)
Theorem hide_automation_twice_appends_again
    (self : loc) (m : OptionsManager.t) (o : Options.t) (w : world) :
  manager_store w !! self = Some m ->
  options_store w !! OptionsManager.options m = Some o ->
  let once := Options.arguments o ++ FirefoxOptionsManager.hidden_arguments in
  let twice := once ++ FirefoxOptionsManager.hidden_arguments in
  exists (w1 w2 : world),
    FirefoxOptionsManager.hide_automation self w = (Ok tt, w1) /\
    FirefoxOptionsManager.arguments self w1 = (Ok once, w1) /\
    FirefoxOptionsManager.hide_automation self w1 = (Ok tt, w2) /\
    FirefoxOptionsManager.arguments self w2 = (Ok twice, w2) /\
    (forall x : string, x ∈ twice <-> x ∈ once) /\
    List.length twice = (List.length once + 4)%nat /\
    ~ NoDup twice.
Proof.
  intros Hm Ho once twice.
  eexists _, _.
  split; [apply (hide_automation_eq self m o w Hm Ho) |].
  split; [erewrite arguments_eq;
          [ | exact Hm | cbn; apply lookup_insert_eq]; reflexivity |].
  split; [eapply hide_automation_eq; [exact Hm | cbn; apply lookup_insert_eq] |].
  split; [erewrite arguments_eq;
          [ | exact Hm | cbn; apply lookup_insert_eq]; reflexivity |].
  split; [| split].
  - intros x. subst twice once. rewrite !elem_of_app. tauto.
  - subst twice. now rewrite length_app.
  - subst twice once. rewrite <- app_assoc. intros H.
    apply NoDup_app in H as (_ & _ & H).
    apply NoDup_cons in H as [H _]. apply H.
    do 3 apply list_elem_of_further. apply list_elem_of_here.
Qed.

Lemma hide_automation_twice_appends_again_witness :
  manager_store example_world !! 1%nat = Some (built_manager 1%nat None None None) /\
  options_store example_world !! 1%nat = Some Options.empty /\
  exists (w1 w2 : world),
    FirefoxOptionsManager.hide_automation 1%nat example_world = (Ok tt, w1) /\
    FirefoxOptionsManager.hide_automation 1%nat w1 = (Ok tt, w2) /\
    FirefoxOptionsManager.arguments 1%nat w2
      = (Ok (FirefoxOptionsManager.hidden_arguments
               ++ FirefoxOptionsManager.hidden_arguments), w2).
Proof.
  split; [reflexivity |]. split; [reflexivity |].
  destruct (hide_automation_twice_appends_again 1%nat
              (built_manager 1%nat None None None) Options.empty example_world
              eq_refl eq_refl)
    as (w1 & w2 & H1 & _ & H2 & H3 & _).
  exists w1, w2. repeat split; assumption.
Defined.

(** C3, as stated, fails: on a manager whose handle is new, one
    application leaves four arguments and two applications leave eight,
    every one of the four twice. *)
Lemma hide_automation_twice_duplicates :
  fst ((FirefoxOptionsManager.hide_automation 1%nat;;
        FirefoxOptionsManager.arguments 1%nat) example_world)
    = Ok [ "--disable-blink-features=AutomationControlled"; "--no-first-run";
           "--no-service-autorun"; "--password-store=basic" ] /\
  fst ((FirefoxOptionsManager.hide_automation 1%nat;;
        FirefoxOptionsManager.hide_automation 1%nat;;
        FirefoxOptionsManager.arguments 1%nat) example_world)
    = Ok [ "--disable-blink-features=AutomationControlled"; "--no-first-run";
           "--no-service-autorun"; "--password-store=basic";
           "--disable-blink-features=AutomationControlled"; "--no-first-run";
           "--no-service-autorun"; "--password-store=basic" ] /\
  fst ((FirefoxOptionsManager.hide_automation 1%nat;;
        FirefoxOptionsManager.hide_automation 1%nat;;
        FirefoxOptionsManager.arguments 1%nat) example_world)
    <> fst ((FirefoxOptionsManager.hide_automation 1%nat;;
             FirefoxOptionsManager.arguments 1%nat) example_world).
Proof.
  split; [reflexivity |]. split; [reflexivity |].
  vm_compute. discriminate.
Qed.

(** C5, as the code has it: [renew_webdriver_options] returns a new
    [Options] object with no arguments, at a location that held no
    object, so it is not the handle the manager stores and shares
    nothing with it.  The method assigns nothing: the manager still
    stores its old handle, and that handle still has its arguments. *)
Theorem renew_webdriver_options_returns_fresh_handle
    (self : loc) (m : OptionsManager.t) (o : Options.t) (w : world) :
  manager_store w !! self = Some m ->
  options_store w !! OptionsManager.options m = Some o ->
  exists (handle : loc) (w' : world),
    FirefoxOptionsManager.renew_webdriver_options self w = (Ok handle, w') /\
    options_store w !! handle = None /\
    handle <> OptionsManager.options m /\
    options_store w' !! handle = Some Options.empty /\
    Options.arguments Options.empty = [] /\
    manager_store w' = manager_store w /\
    FirefoxOptionsManager.options self w' = (Ok (OptionsManager.options m), w') /\
    FirefoxOptionsManager.arguments self w' = (Ok (Options.arguments o), w') /\
    trace w' = trace w.
Proof.
  intros Hm Ho.
  assert (Hfresh := fresh_options_unused w).
  assert (Hne : fresh (dom (options_store w)) <> OptionsManager.options m)
    by (intros E; rewrite E in Hfresh; congruence).
  eexists _, _. split; [apply Options_new_eq |].
  split; [exact Hfresh |]. split; [exact Hne |].
  split; [cbn; apply lookup_insert_eq |].
  split; [reflexivity |]. split; [reflexivity |].
  split; [now apply options_eq |].
  split; [| reflexivity].
  eapply arguments_eq; [exact Hm |].
  cbn. now rewrite lookup_insert_ne.
Qed.

Lemma renew_webdriver_options_returns_fresh_handle_witness :
  manager_store example_world !! 1%nat = Some (built_manager 1%nat None None None) /\
  options_store example_world !! 1%nat = Some Options.empty /\
  exists (w' : world),
    FirefoxOptionsManager.renew_webdriver_options 1%nat example_world = (Ok 2%nat, w') /\
    options_store w' !! 2%nat = Some Options.empty /\
    FirefoxOptionsManager.options 1%nat w' = (Ok 1%nat, w').
Proof.
  split; [reflexivity |]. split; [reflexivity |].
  destruct (renew_webdriver_options_returns_fresh_handle 1%nat
              (built_manager 1%nat None None None) Options.empty example_world
              eq_refl eq_refl)
    as (handle & w' & Hrun & _ & _ & Hnew & _ & _ & Hkept & _).
  assert (E : handle = 2%nat).
  { change (FirefoxOptionsManager.renew_webdriver_options 1%nat example_world)
      with (Options_new example_world) in Hrun.
    rewrite Options_new_eq in Hrun. injection Hrun as <- _. reflexivity. }
  subst handle. exists w'. repeat split; assumption.
Defined.

(** C5, as stated, fails: the method does not discard the stored handle.
    After [hide_automation] has put four arguments on a manager's handle,
    [renew_webdriver_options] returns another handle, and the manager
    still stores the old one with its four arguments. *)
Lemma renew_webdriver_options_keeps_stored_handle :
  fst ((FirefoxOptionsManager.hide_automation 1%nat;;
        FirefoxOptionsManager.options 1%nat) example_world) = Ok 1%nat /\
  fst ((FirefoxOptionsManager.hide_automation 1%nat;;
        FirefoxOptionsManager.renew_webdriver_options 1%nat) example_world) = Ok 2%nat /\
  fst ((FirefoxOptionsManager.hide_automation 1%nat;;
        FirefoxOptionsManager.renew_webdriver_options 1%nat;;
        FirefoxOptionsManager.options 1%nat) example_world) = Ok 1%nat /\
  fst ((FirefoxOptionsManager.hide_automation 1%nat;;
        FirefoxOptionsManager.renew_webdriver_options 1%nat;;
        FirefoxOptionsManager.arguments 1%nat) example_world)
    = Ok [ "--disable-blink-features=AutomationControlled"; "--no-first-run";
           "--no-service-autorun"; "--password-store=basic" ].
Proof. repeat split; reflexivity. Qed.

(** ** Default arguments of the constructors *)

(** C4, as the code has it: the default options manager of
    [FirefoxRemoteWebDriver] is one object, made when the class is
    defined.  Two instances constructed without that argument store the
    same reference, and arguments added through one instance's manager
    are on the handle the other instance reads.  Two instances given
    managers of their own, with handles of their own, do not affect each
    other.  [FirefoxWebDriver] hands the same two default assemblers to
    its base constructor on every call that leaves them out. *)
Theorem default_options_manager_is_shared
    (default_manager : loc) (m : OptionsManager.t) (o : Options.t) (w : world)
    (address1 session1 address2 session2 : string)
    (wait1 timeout1 wait2 timeout2 : option Z) :
  manager_store w !! default_manager = Some m ->
  options_store w !! OptionsManager.options m = Some o ->
  let a := FirefoxRemoteWebDriver.init default_manager address1 session1 None wait1 timeout1 in
  let b := FirefoxRemoteWebDriver.init default_manager address2 session2 None wait2 timeout2 in
  FirefoxRemoteWebDriver.webdriver_options_manager a = default_manager /\
  FirefoxRemoteWebDriver.webdriver_options_manager b = default_manager /\
  (exists w' : world,
     FirefoxOptionsManager.arguments (FirefoxRemoteWebDriver.webdriver_options_manager b) w
       = (Ok (Options.arguments o), w) /\
     FirefoxOptionsManager.hide_automation
       (FirefoxRemoteWebDriver.webdriver_options_manager a) w = (Ok tt, w') /\
     FirefoxOptionsManager.arguments (FirefoxRemoteWebDriver.webdriver_options_manager b) w'
       = (Ok (Options.arguments o ++ FirefoxOptionsManager.hidden_arguments), w')) /\
  (forall (la lb : loc) (ma mb : OptionsManager.t) (oa ob : Options.t),
     manager_store w !! la = Some ma ->
     manager_store w !! lb = Some mb ->
     options_store w !! OptionsManager.options ma = Some oa ->
     options_store w !! OptionsManager.options mb = Some ob ->
     OptionsManager.options ma <> OptionsManager.options mb ->
     let a' := FirefoxRemoteWebDriver.init default_manager address1 session1 (Some la)
                 wait1 timeout1 in
     let b' := FirefoxRemoteWebDriver.init default_manager address2 session2 (Some lb)
                 wait2 timeout2 in
     exists w' : world,
       FirefoxOptionsManager.hide_automation
         (FirefoxRemoteWebDriver.webdriver_options_manager a') w = (Ok tt, w') /\
       FirefoxOptionsManager.arguments
         (FirefoxRemoteWebDriver.webdriver_options_manager b') w'
         = (Ok (Options.arguments ob), w')) /\
  (forall (BrowserWebDriver_init : FirefoxWebDriver.base_constructor)
          (local_start_args local_manager : loc) (rect : WindowRect.t)
          (webdriver_path : string),
     FirefoxWebDriver.init BrowserWebDriver_init local_start_args local_manager rect
       webdriver_path None None None None None
     = BrowserWebDriver_init "firefox.exe" "--remote-debugging-port %d"
         FirefoxStartArgs.profile_template "--headless" "--mute-audio"
         "127.0.0.1:%d" "user-agent=%s" "--proxy-server=%s"
         webdriver_path local_start_args local_manager 5 5 rect).
Proof.
  intros Hm Ho a b. subst a b. cbn.
  split; [reflexivity |]. split; [reflexivity |]. split; [| split; [| reflexivity]].
  - eexists. split; [now apply (arguments_eq default_manager m o) |].
    split; [apply (hide_automation_eq default_manager m o w Hm Ho) |].
    erewrite arguments_eq; [ | exact Hm | cbn; apply lookup_insert_eq]; reflexivity.
  - intros la lb ma mb oa ob Hla Hlb Hoa Hob Hne.
    eexists. split; [apply (hide_automation_eq la ma oa w Hla Hoa) |].
    eapply arguments_eq; [exact Hlb |].
    cbn. now rewrite lookup_insert_ne.
Qed.

Lemma default_options_manager_is_shared_witness :
  manager_store example_world !! remote_options_manager_default example_defaults
    = Some (built_manager 1%nat None None None) /\
  options_store example_world !! 1%nat = Some Options.empty /\
  FirefoxRemoteWebDriver.webdriver_options_manager example_remote
    = FirefoxRemoteWebDriver.webdriver_options_manager example_remote' /\
  exists w' : world,
    FirefoxOptionsManager.hide_automation
      (FirefoxRemoteWebDriver.webdriver_options_manager example_remote) example_world
      = (Ok tt, w') /\
    FirefoxOptionsManager.arguments
      (FirefoxRemoteWebDriver.webdriver_options_manager example_remote') w'
      = (Ok FirefoxOptionsManager.hidden_arguments, w').
Proof.
  split; [reflexivity |]. split; [reflexivity |].
  destruct (default_options_manager_is_shared
              (remote_options_manager_default example_defaults)
              (built_manager 1%nat None None None) Options.empty example_world
              "http://127.0.0.1:4444" "abc123" "http://127.0.0.1:4444" "def456"
              None None None None eq_refl eq_refl)
    as (Ha & Hb & (w' & _ & Hhide & Hargs) & _ & _).
  split; [exact (eq_trans Ha (eq_sym Hb)) |].
  exists w'. split; assumption.
Defined.

(** C4, as stated, fails: two controllers constructed with default
    arguments hold the same manager object, and hiding automation through
    the first changes the arguments read through the second from none to
    four. *)
Lemma default_options_manager_bleeds_across_instances :
  FirefoxRemoteWebDriver.webdriver_options_manager example_remote
    = FirefoxRemoteWebDriver.webdriver_options_manager example_remote' /\
  fst (FirefoxOptionsManager.arguments
         (FirefoxRemoteWebDriver.webdriver_options_manager example_remote')
         example_world) = Ok [] /\
  fst ((FirefoxOptionsManager.hide_automation
          (FirefoxRemoteWebDriver.webdriver_options_manager example_remote);;
        FirefoxOptionsManager.arguments
          (FirefoxRemoteWebDriver.webdriver_options_manager example_remote'))
         example_world)
    = Ok [ "--disable-blink-features=AutomationControlled"; "--no-first-run";
           "--no-service-autorun"; "--password-store=basic" ].
Proof. repeat split; reflexivity. Qed.

(** ** FirefoxWebDriver.create_driver *)

(** C10: [FirefoxWebDriver.create_driver] calls the automation library in
    one fixed order: the service from the stored webdriver path, the
    driver from the manager's options handle and that service, window
    position, window size, implicit wait, page-load timeout.  Every run
    issues an initial part of this sequence, the run in which no call
    fails issues all of it and returns.  The method assigns only
    [webdriver_service], [webdriver_options] and [driver]; every other
    attribute and every stored object is as before. *)
Theorem create_driver_order_and_frame
    (self : FirefoxWebDriver.t) (w : world) (m : OptionsManager.t) :
  manager_store w !! FirefoxWebDriver.webdriver_options_manager self = Some m ->
  let session := server_sessions w (sessions_created w) in
  let calls := local_calls self (OptionsManager.options m) session in
  exists (r : result unit) (self' : FirefoxWebDriver.t) (w' : world) (issued : list event),
    FirefoxWebDriver.create_driver (self, w) = (r, (self', w')) /\
    (trace w' = trace w ++ issued /\ issued `prefix_of` calls) /\
    (fail_at w = None ->
       r = Ok tt /\ issued = calls /\
       FirefoxWebDriver.webdriver_service self'
         = Some {| Service.executable_path := FirefoxWebDriver.webdriver_path self |} /\
       FirefoxWebDriver.webdriver_options self' = Some (OptionsManager.options m) /\
       FirefoxWebDriver.driver self' = Some {| WebDriver.session_id := session |}) /\
    self' = FirefoxWebDriver.assign self
              (FirefoxWebDriver.webdriver_start_args self)
              (FirefoxWebDriver.webdriver_options_manager self)
              (FirefoxWebDriver.webdriver_service self')
              (FirefoxWebDriver.webdriver_options self')
              (FirefoxWebDriver.driver self') /\
    (FirefoxWebDriver.webdriver_path self' = FirefoxWebDriver.webdriver_path self /\
     FirefoxWebDriver.webdriver_start_args self' = FirefoxWebDriver.webdriver_start_args self /\
     FirefoxWebDriver.webdriver_options_manager self'
       = FirefoxWebDriver.webdriver_options_manager self /\
     FirefoxWebDriver.window_rect self' = FirefoxWebDriver.window_rect self /\
     FirefoxWebDriver.base_implicitly_wait self' = FirefoxWebDriver.base_implicitly_wait self /\
     FirefoxWebDriver.base_page_load_timeout self'
       = FirefoxWebDriver.base_page_load_timeout self) /\
    (options_store w' = options_store w /\
     manager_store w' = manager_store w /\
     start_args_store w' = start_args_store w).
Proof.
  intros Hm session calls. subst session calls.
  destruct w as [os ms ss tr fa names n]. cbn in Hm.
  destruct self. cbn in Hm.
  destruct fa as [[|[|[|[|[|[|k]]]]]]|]; run_controller Hm;
    eexists _, _, _, _; (split; [reflexivity |]);
    (split; [trace_prefix |]);
    (split; [try discriminate; intros _; rewrite <- ?app_assoc; repeat split |]);
    repeat split.
Qed.

Lemma create_driver_order_and_frame_witness :
  manager_store example_world !! FirefoxWebDriver.webdriver_options_manager example_local
    = Some (built_manager 0%nat None None None) /\
  fail_at example_world = None /\
  exists (self' : FirefoxWebDriver.t) (w' : world),
    FirefoxWebDriver.create_driver (example_local, example_world) = (Ok tt, (self', w')) /\
    trace w' =
      trace example_world ++
      [ NewService "/path/to/geckodriver";
        NewFirefox (Some 0%nat) (Some {| Service.executable_path := "/path/to/geckodriver" |});
        SetWindowPosition "throwaway-0" 0 0;
        SetWindowSize "throwaway-0" 1920 1080;
        ImplicitlyWait "throwaway-0" 5;
        SetPageLoadTimeout "throwaway-0" 5 ] /\
    FirefoxWebDriver.webdriver_path self' = "/path/to/geckodriver" /\
    manager_store w' = manager_store example_world.
Proof.
  split; [reflexivity |]. split; [reflexivity |].
  destruct (create_driver_order_and_frame example_local example_world
              (built_manager 0%nat None None None) eq_refl)
    as (r & self' & w' & issued & Hrun & [Htrace _] & Hok & _ & (Hpath & _) & (_ & Hms & _)).
  destruct (Hok eq_refl) as (-> & -> & _).
  exists self', w'. repeat split; assumption.
Defined.

(** ** FirefoxWebDriver.renew_bas_and_bom *)

Lemma start_command_eq (self : FirefoxWebDriver.t) (a : StartArgs.t) (w : world) :
  start_args_store w !! FirefoxWebDriver.webdriver_start_args self = Some a ->
  FirefoxWebDriver.start_command (self, w) = (Ok (StartArgs.start_command a), (self, w)).
Proof.
  intros H. unfold FirefoxWebDriver.start_command.
  erewrite bind_Ok by reflexivity. cbn [fst].
  erewrite bind_Ok by (apply lift_world_eq, read_start_args_eq; exact H).
  reflexivity.
Qed.

(** The world after both assemblers have been built again. *)
Lemma renew_bas_and_bom_eq (self : FirefoxWebDriver.t) (w : world) :
  let start_args := fresh (dom (start_args_store w)) in
  let manager := fresh (dom (manager_store w)) in
  let handle := fresh (dom (options_store w)) in
  FirefoxWebDriver.renew_bas_and_bom (self, w) =
    (Ok tt,
     (FirefoxWebDriver.set_webdriver_options_manager manager
        (FirefoxWebDriver.set_webdriver_start_args start_args self),
      set_manager_store
        (insert manager
           (built_manager handle (FirefoxWebDriver.debugging_port self)
              (FirefoxWebDriver.user_agent self) (FirefoxWebDriver.proxy self)))
        (set_options_store
           (insert handle
              (built_options (FirefoxWebDriver.debugging_port self)
                 (FirefoxWebDriver.user_agent self) (FirefoxWebDriver.proxy self)))
           (set_start_args_store
              (insert start_args
                 (built_start_args (FirefoxWebDriver.webdriver_dir self)
                    (FirefoxWebDriver.debugging_port self)
                    (FirefoxWebDriver.headless_mode self)
                    (FirefoxWebDriver.mute_audio self))) w)))).
Proof.
  intros start_args manager handle. subst start_args manager handle.
  unfold FirefoxWebDriver.renew_bas_and_bom.
  erewrite bind_Ok by reflexivity. cbn [fst].
  erewrite bind_Ok by (apply lift_world_eq, FirefoxStartArgs_init_eq).
  erewrite bind_Ok by reflexivity.
  erewrite bind_Ok by reflexivity. cbn [fst].
  erewrite bind_Ok by (apply lift_world_eq, FirefoxOptionsManager_init_eq).
  destruct self; reflexivity.
Qed.

(** C9: [renew_bas_and_bom] always returns, and builds both assemblers
    from the controller's stored fields: the start arguments from
    [webdriver_dir], [debugging_port], [headless_mode] and [mute_audio],
    the options manager from [debugging_port], [user_agent] and [proxy];
    it assigns the two assembler attributes and nothing else.  Called
    twice in a row it builds two different start-arguments objects with
    the same start command, the one assembled from the stored fields. *)
Theorem renew_bas_and_bom_twice_same_command (self : FirefoxWebDriver.t) (w : world) :
  exists (self1 self2 : FirefoxWebDriver.t) (w1 w2 : world)
         (command : string) (handle : loc),
    FirefoxWebDriver.renew_bas_and_bom (self, w) = (Ok tt, (self1, w1)) /\
    FirefoxWebDriver.renew_bas_and_bom (self1, w1) = (Ok tt, (self2, w2)) /\
    FirefoxWebDriver.start_command (self1, w1) = (Ok command, (self1, w1)) /\
    FirefoxWebDriver.start_command (self2, w2) = (Ok command, (self2, w2)) /\
    BrowserStartArgs.assemble "firefox.exe" "--remote-debugging-port %d"
      FirefoxStartArgs.profile_template "--headless" "--mute-audio"
      (FirefoxWebDriver.webdriver_dir self) (FirefoxWebDriver.debugging_port self)
      (FirefoxWebDriver.headless_mode self) (FirefoxWebDriver.mute_audio self)
      = Ok command /\
    start_args_store w1 !! FirefoxWebDriver.webdriver_start_args self1
      = Some (built_start_args (FirefoxWebDriver.webdriver_dir self)
                (FirefoxWebDriver.debugging_port self)
                (FirefoxWebDriver.headless_mode self)
                (FirefoxWebDriver.mute_audio self)) /\
    manager_store w1 !! FirefoxWebDriver.webdriver_options_manager self1
      = Some (built_manager handle (FirefoxWebDriver.debugging_port self)
                (FirefoxWebDriver.user_agent self) (FirefoxWebDriver.proxy self)) /\
    options_store w1 !! handle
      = Some (built_options (FirefoxWebDriver.debugging_port self)
                (FirefoxWebDriver.user_agent self) (FirefoxWebDriver.proxy self)) /\
    self1 = FirefoxWebDriver.assign self
              (FirefoxWebDriver.webdriver_start_args self1)
              (FirefoxWebDriver.webdriver_options_manager self1)
              (FirefoxWebDriver.webdriver_service self)
              (FirefoxWebDriver.webdriver_options self)
              (FirefoxWebDriver.driver self) /\
    self2 = FirefoxWebDriver.assign self
              (FirefoxWebDriver.webdriver_start_args self2)
              (FirefoxWebDriver.webdriver_options_manager self2)
              (FirefoxWebDriver.webdriver_service self)
              (FirefoxWebDriver.webdriver_options self)
              (FirefoxWebDriver.driver self) /\
    FirefoxWebDriver.webdriver_start_args self2
      <> FirefoxWebDriver.webdriver_start_args self1 /\
    trace w2 = trace w.
Proof.
  destruct self.
  eexists _, _, _, _, _, _.
  split; [apply renew_bas_and_bom_eq |].
  split; [apply renew_bas_and_bom_eq |].
  split; [erewrite start_command_eq;
          [ | cbn; apply lookup_insert_eq ]; reflexivity |].
  split; [erewrite start_command_eq;
          [ | cbn; apply lookup_insert_eq ]; reflexivity |].
  split; [apply assemble_firefox |].
  split; [cbn; apply lookup_insert_eq |].
  split; [cbn; apply lookup_insert_eq |].
  split; [cbn; apply lookup_insert_eq |].
  split; [reflexivity |].
  split; [reflexivity |].
  split; [| reflexivity].
  cbn. intros E.
  pose proof (is_fresh (dom (<[fresh (dom (start_args_store w)) :=
    built_start_args webdriver_dir debugging_port headless_mode mute_audio]>
      (start_args_store w)))) as Hfresh.
  apply Hfresh. rewrite E. rewrite dom_insert_L.
  apply elem_of_union_l, elem_of_singleton. reflexivity.
Qed.

(** ** FirefoxRemoteWebDriver.create_driver *)

(** What a run of the method leaves behind, whichever call fails. *)
Lemma remote_create_driver_run
    (self : FirefoxRemoteWebDriver.t) (w : world) (m : OptionsManager.t)
    (command_executor session_id : option string) :
  manager_store w !! FirefoxRemoteWebDriver.webdriver_options_manager self = Some m ->
  let address := default (FirefoxRemoteWebDriver.command_executor self) command_executor in
  let target := default (FirefoxRemoteWebDriver.session_id self) session_id in
  let throwaway := server_sessions w (sessions_created w) in
  let calls :=
    remote_calls address (OptionsManager.options m) throwaway target
      (FirefoxRemoteWebDriver.base_implicitly_wait self)
      (FirefoxRemoteWebDriver.base_page_load_timeout self) in
  exists (r : result unit) (self' : FirefoxRemoteWebDriver.t) (w' : world)
         (issued : list event),
    FirefoxRemoteWebDriver.create_driver command_executor session_id (self, w)
      = (r, (self', w')) /\
    (trace w' = trace w ++ issued /\ issued `prefix_of` calls) /\
    (fail_at w = None ->
       r = Ok tt /\ issued = calls /\ fail_at w' = None /\
       FirefoxRemoteWebDriver.driver self' = Some {| WebDriver.session_id := target |}) /\
    (FirefoxRemoteWebDriver.command_executor self' = address /\
     FirefoxRemoteWebDriver.session_id self' = target /\
     FirefoxRemoteWebDriver.webdriver_options_manager self'
       = FirefoxRemoteWebDriver.webdriver_options_manager self /\
     FirefoxRemoteWebDriver.base_implicitly_wait self'
       = FirefoxRemoteWebDriver.base_implicitly_wait self /\
     FirefoxRemoteWebDriver.base_page_load_timeout self'
       = FirefoxRemoteWebDriver.base_page_load_timeout self) /\
    (options_store w' = options_store w /\
     manager_store w' = manager_store w /\
     start_args_store w' = start_args_store w).
Proof.
  intros Hm address target throwaway calls. subst address target throwaway calls.
  destruct w as [os ms ss tr fa names n]. cbn in Hm.
  destruct self. cbn in Hm.
  destruct command_executor as [c|], session_id as [s|];
    (destruct fa as [[|[|[|[|[|k]]]]]|]; run_controller Hm;
     eexists _, _, _, _; (split; [reflexivity |]);
     (split; [trace_prefix |]);
     (split; [try discriminate; intros _; rewrite <- ?app_assoc; repeat split |]);
     repeat split).
Qed.

Ltac event_at j H :=
  destruct j as [|[|[|[|[|[|j]]]]]]; cbn in H; try discriminate H;
  injection H as <-.

(** Whatever initial part of the sequence has been issued, a close-window
    command in it is the only one and goes to the throwaway session, the
    rebinding comes after it, and a window switch comes after the
    rebinding. *)
Lemma remote_calls_order (command_executor : string) (options : loc)
    (throwaway target : string) (wait timeout : Z) (issued : list event) :
  issued `prefix_of`
    remote_calls command_executor options throwaway target wait timeout ->
  (length (filter (fun e => is_close_window e = true) issued) <= 1)%nat /\
  (forall e : event, e ∈ issued -> is_close_window e = true -> e = CloseWindow throwaway) /\
  preceded_by (eq (CloseWindow throwaway)) (fun e => is_rebind e = true) issued /\
  preceded_by (eq (AssignSessionId throwaway target))
    (fun e => is_switch_to_window e = true) issued.
Proof.
  intros [rest Hp]. unfold remote_calls in Hp.
  destruct issued as [|e0 [|e1 [|e2 [|e3 [|e4 [|e5 [|e6 more]]]]]]];
    simplify_eq/=.
  all: split; [cbn; lia |].
  all: split; [intros e He Hc; set_unfold in He; intuition (subst; try discriminate; reflexivity) |].
  all: split; intros j e Hj HQ; event_at j Hj; try discriminate HQ.
  all: try (exists 1%nat; eexists; split; [lia | split; reflexivity]).
  all: try (exists 2%nat; eexists; split; [lia | split; reflexivity]).
Qed.

(** C1: in every run of [FirefoxRemoteWebDriver.create_driver], whatever
    is stored as server address and session id, at most one close-window
    command is issued and it goes to the throwaway session that
    [webdriver.Remote] has just opened; the assignment of the handle's
    session id comes strictly after that close-window command, and a
    window switch comes strictly after the assignment.  The run in which
    no call fails returns, issues exactly one close-window command and
    one assignment, and leaves the handle bound to the stored session. *)
Theorem close_window_then_rebind_then_switch
    (self : FirefoxRemoteWebDriver.t) (w : world) (m : OptionsManager.t)
    (command_executor session_id : option string) :
  manager_store w !! FirefoxRemoteWebDriver.webdriver_options_manager self = Some m ->
  let target := default (FirefoxRemoteWebDriver.session_id self) session_id in
  let throwaway := server_sessions w (sessions_created w) in
  exists (r : result unit) (self' : FirefoxRemoteWebDriver.t) (w' : world)
         (issued : list event),
    FirefoxRemoteWebDriver.create_driver command_executor session_id (self, w)
      = (r, (self', w')) /\
    trace w' = trace w ++ issued /\
    (List.length (filter (fun e => is_close_window e = true) issued) <= 1)%nat /\
    (forall e : event,
       e ∈ issued -> is_close_window e = true -> e = CloseWindow throwaway) /\
    preceded_by (eq (CloseWindow throwaway)) (fun e => is_rebind e = true) issued /\
    preceded_by (eq (AssignSessionId throwaway target))
      (fun e => is_switch_to_window e = true) issued /\
    (fail_at w = None ->
       r = Ok tt /\
       filter (fun e => is_close_window e = true) issued = [CloseWindow throwaway] /\
       filter (fun e => is_rebind e = true) issued = [AssignSessionId throwaway target] /\
       issued !! 1%nat = Some (CloseWindow throwaway) /\
       issued !! 2%nat = Some (AssignSessionId throwaway target) /\
       issued !! 3%nat = Some (SwitchToWindow target) /\
       FirefoxRemoteWebDriver.driver self' = Some {| WebDriver.session_id := target |}).
Proof.
  intros Hm target throwaway.
  destruct (remote_create_driver_run self w m command_executor session_id Hm)
    as (r & self' & w' & issued & Hrun & [Htrace Hprefix] & Hok & _).
  exists r, self', w', issued.
  destruct (remote_calls_order _ _ _ _ _ _ _ Hprefix) as (H1 & H2 & H3 & H4).
  repeat (split; [assumption |]).
  intros Hf. destruct (Hok Hf) as (-> & -> & _ & Hd).
  repeat split; assumption.
Qed.

Lemma close_window_then_rebind_then_switch_witness :
  manager_store example_world !! FirefoxRemoteWebDriver.webdriver_options_manager example_remote
    = Some (built_manager 1%nat None None None) /\
  fail_at example_world = None /\
  exists (self' : FirefoxRemoteWebDriver.t) (w' : world) (issued : list event),
    FirefoxRemoteWebDriver.create_driver None None (example_remote, example_world)
      = (Ok tt, (self', w')) /\
    trace w' = trace example_world ++ issued /\
    filter (fun e => is_close_window e = true) issued = [CloseWindow "throwaway-0"] /\
    issued !! 1%nat = Some (CloseWindow "throwaway-0") /\
    issued !! 2%nat = Some (AssignSessionId "throwaway-0" "abc123") /\
    FirefoxRemoteWebDriver.driver self' = Some {| WebDriver.session_id := "abc123" |}.
Proof.
  split; [reflexivity |]. split; [reflexivity |].
  destruct (close_window_then_rebind_then_switch example_remote example_world
              (built_manager 1%nat None None None) None None eq_refl)
    as (r & self' & w' & issued & Hrun & Htrace & _ & _ & _ & _ & Hok).
  destruct (Hok eq_refl) as (-> & Hc & _ & H1 & H2 & _ & Hd).
  exists self', w', issued. repeat split; assumption.
Defined.

(** C2: an argument given to [FirefoxRemoteWebDriver.create_driver]
    replaces the stored value and an argument left out keeps it, in every
    run and before the remote driver is asked for: the request goes to
    the address stored then.  When no call fails the handle ends up bound
    to the stored session id; a second call that gives only a new session
    id binds the handle to it and keeps the stored address. *)
Theorem create_driver_arguments_overwrite_or_reuse
    (self : FirefoxRemoteWebDriver.t) (w : world) (m : OptionsManager.t)
    (command_executor session_id : option string) :
  manager_store w !! FirefoxRemoteWebDriver.webdriver_options_manager self = Some m ->
  let address := default (FirefoxRemoteWebDriver.command_executor self) command_executor in
  let target := default (FirefoxRemoteWebDriver.session_id self) session_id in
  exists (r : result unit) (self' : FirefoxRemoteWebDriver.t) (w' : world)
         (issued : list event),
    FirefoxRemoteWebDriver.create_driver command_executor session_id (self, w)
      = (r, (self', w')) /\
    trace w' = trace w ++ issued /\
    FirefoxRemoteWebDriver.command_executor self' = address /\
    FirefoxRemoteWebDriver.session_id self' = target /\
    (forall e : event,
       e ∈ issued -> e = NewRemote address (OptionsManager.options m) \/
                     forall a o, e <> NewRemote a o) /\
    (fail_at w = None ->
       r = Ok tt /\
       issued !! 0%nat = Some (NewRemote address (OptionsManager.options m)) /\
       FirefoxRemoteWebDriver.driver self' = Some {| WebDriver.session_id := target |} /\
       forall again : string,
       exists (self'' : FirefoxRemoteWebDriver.t) (w'' : world),
         FirefoxRemoteWebDriver.create_driver None (Some again) (self', w')
           = (Ok tt, (self'', w'')) /\
         FirefoxRemoteWebDriver.driver self'' = Some {| WebDriver.session_id := again |} /\
         FirefoxRemoteWebDriver.session_id self'' = again /\
         FirefoxRemoteWebDriver.command_executor self'' = address).
Proof.
  intros Hm address target.
  destruct (remote_create_driver_run self w m command_executor session_id Hm)
    as (r & self' & w' & issued & Hrun & [Htrace Hprefix] & Hok
        & (Hce & Hsid & Hom & _) & (_ & Hms & _)).
  exists r, self', w', issued.
  split; [assumption |]. split; [assumption |].
  split; [assumption |]. split; [assumption |].
  split.
  - intros e He. destruct Hprefix as [rest Hp].
    assert (Hin : e ∈ issued ++ rest) by (apply elem_of_app; now left).
    rewrite <- Hp in Hin. unfold remote_calls in Hin. set_unfold in Hin.
    destruct Hin as [->|[->|[->|[->|[->|[->|[]]]]]]];
      first [ now left | right; discriminate ].
  - intros Hf. destruct (Hok Hf) as (-> & -> & Hf' & Hd).
    split; [reflexivity |]. split; [reflexivity |]. split; [assumption |].
    intros again.
    assert (Hm' : manager_store w'
                    !! FirefoxRemoteWebDriver.webdriver_options_manager self' = Some m)
      by (rewrite Hms, Hom; exact Hm).
    destruct (remote_create_driver_run self' w' m None (Some again) Hm')
      as (r2 & self'' & w'' & issued2 & Hrun2 & _ & Hok2 & (Hce2 & Hsid2 & _) & _).
    destruct (Hok2 Hf') as (-> & _ & _ & Hd2).
    exists self'', w''. cbn in Hce2, Hsid2, Hd2.
    repeat split; try assumption. now rewrite Hce2.
Qed.

Lemma create_driver_arguments_overwrite_or_reuse_witness :
  manager_store example_world !! FirefoxRemoteWebDriver.webdriver_options_manager example_remote
    = Some (built_manager 1%nat None None None) /\
  fail_at example_world = None /\
  exists (self' self'' : FirefoxRemoteWebDriver.t) (w' w'' : world),
    FirefoxRemoteWebDriver.create_driver None None (example_remote, example_world)
      = (Ok tt, (self', w')) /\
    FirefoxRemoteWebDriver.driver self' = Some {| WebDriver.session_id := "abc123" |} /\
    FirefoxRemoteWebDriver.create_driver None (Some "xyz789") (self', w')
      = (Ok tt, (self'', w'')) /\
    FirefoxRemoteWebDriver.driver self'' = Some {| WebDriver.session_id := "xyz789" |} /\
    FirefoxRemoteWebDriver.command_executor self'' = "http://127.0.0.1:4444".
Proof.
  split; [reflexivity |]. split; [reflexivity |].
  destruct (create_driver_arguments_overwrite_or_reuse example_remote example_world
              (built_manager 1%nat None None None) None None eq_refl)
    as (r & self' & w' & issued & Hrun & _ & _ & _ & _ & Hok).
  destruct (Hok eq_refl) as (-> & _ & Hd & Hagain).
  destruct (Hagain "xyz789") as (self'' & w'' & Hrun2 & Hd2 & _ & Hce2).
  exists self', self'', w', w''. repeat split; assumption.
Defined.

(** * Further properties *)

(** ** hide_automation and renew_webdriver_options on the store *)



(** X2: [hide_automation] applied [n] times in a row returns normally and
    leaves on the handle the arguments it had followed by [n] copies of
    the four hidden arguments, so the list grows by four entries with
    every application. *)
Theorem hide_automation_n_times
    (n : nat) (self : loc) (m : OptionsManager.t) (o : Options.t) (w : world) :
  manager_store w !! self = Some m ->
  options_store w !! OptionsManager.options m = Some o ->
  exists (w' : world),
    times n (FirefoxOptionsManager.hide_automation self) w = (Ok tt, w') /\
    FirefoxOptionsManager.arguments self w'
      = (Ok (Options.arguments o
               ++ mjoin (replicate n FirefoxOptionsManager.hidden_arguments)), w') /\
    manager_store w' = manager_store w /\
    trace w' = trace w.
Proof.
  revert o w. induction n as [|n IH]; intros o w Hm Ho.
  - exists w. split; [reflexivity |].
    split; [| split; reflexivity].
    cbn. rewrite app_nil_r. now apply (arguments_eq self m o).
  - cbn [times].
    erewrite bind_Ok by (apply (hide_automation_eq self m o w Hm Ho)).
    destruct (IH
      {| Options.arguments := Options.arguments o ++ FirefoxOptionsManager.hidden_arguments;
         Options.debugger_address := Options.debugger_address o |}
      (set_options_store
         (insert (OptionsManager.options m)
            {| Options.arguments :=
                 Options.arguments o ++ FirefoxOptionsManager.hidden_arguments;
               Options.debugger_address := Options.debugger_address o |}) w))
      as (w' & Hrun & Hargs & Hms & Htrace).
    { exact Hm. }
    { cbn. apply lookup_insert_eq. }
    exists w'. split; [exact Hrun |].
    split; [| split; assumption].
    rewrite Hargs. cbn [replicate mjoin list_join Options.arguments].
    now rewrite <- app_assoc.
Qed.

Lemma hide_automation_n_times_witness :
  manager_store example_world !! 1%nat = Some (built_manager 1%nat None None None) /\
  options_store example_world !! 1%nat = Some Options.empty /\
  exists (w' : world) (arguments : list string),
    times 3 (FirefoxOptionsManager.hide_automation 1%nat) example_world = (Ok tt, w') /\
    FirefoxOptionsManager.arguments 1%nat w' = (Ok arguments, w') /\
    List.length arguments = 12%nat.
Proof.
  split; [reflexivity |]. split; [reflexivity |].
  destruct (hide_automation_n_times 3 1%nat (built_manager 1%nat None None None)
              Options.empty example_world eq_refl eq_refl)
    as (w' & Hrun & Hargs & _).
  exists w'. eexists. split; [exact Hrun |]. split; [exact Hargs | reflexivity].
Defined.

(** X3: two calls of [renew_webdriver_options] in a row return two
    different handles, both new and empty; an argument added to the first
    is not on the second, and no handle that existed before the calls,
    the manager's among them, is changed. *)
Theorem renew_webdriver_options_handles_are_independent
    (self : loc) (argument : string) (w : world) :
  argument <> "" ->
  exists (h1 h2 : loc) (w1 w2 w3 : world),
    FirefoxOptionsManager.renew_webdriver_options self w = (Ok h1, w1) /\
    FirefoxOptionsManager.renew_webdriver_options self w1 = (Ok h2, w2) /\
    h1 <> h2 /\
    options_store w !! h1 = None /\
    options_store w !! h2 = None /\
    options_store w2 !! h1 = Some Options.empty /\
    options_store w2 !! h2 = Some Options.empty /\
    add_argument h1 argument w2 = (Ok tt, w3) /\
    (exists o1, options_store w3 !! h1 = Some o1 /\ Options.arguments o1 = [argument]) /\
    options_store w3 !! h2 = Some Options.empty /\
    (forall (l : loc) (o : Options.t),
       options_store w !! l = Some o -> options_store w3 !! l = Some o) /\
    manager_store w3 = manager_store w.
Proof.
  intros Hne.
  set (h1 := fresh (dom (options_store w))).
  set (w1 := set_options_store (insert h1 Options.empty) w).
  set (h2 := fresh (dom (options_store w1))).
  set (w2 := set_options_store (insert h2 Options.empty) w1).
  assert (H1 : options_store w !! h1 = None) by apply fresh_options_unused.
  assert (H2 : options_store w1 !! h2 = None) by apply fresh_options_unused.
  assert (H11 : options_store w1 !! h1 = Some Options.empty)
    by (cbn; apply lookup_insert_eq).
  assert (Hne12 : h1 <> h2) by (intros E; rewrite E in H11; congruence).
  assert (H2w : options_store w !! h2 = None).
  { cbn in H2. rewrite lookup_insert_ne in H2; [exact H2 | exact Hne12]. }
  assert (H21 : options_store w2 !! h1 = Some Options.empty).
  { cbn. rewrite lookup_insert_ne by congruence. apply lookup_insert_eq. }
  exists h1, h2, w1, w2. eexists.
  split; [apply Options_new_eq |]. split; [apply Options_new_eq |].
  split; [exact Hne12 |]. split; [exact H1 |]. split; [exact H2w |].
  split; [exact H21 |]. split; [cbn; apply lookup_insert_eq |].
  split; [apply (add_argument_eq h1 argument Options.empty w2 H21 Hne) |].
  split; [eexists; split; [cbn; apply lookup_insert_eq | reflexivity] |].
  split; [cbn; rewrite lookup_insert_ne by exact Hne12; apply lookup_insert_eq |].
  split; [| reflexivity].
  intros l o Hl. cbn.
  rewrite !lookup_insert_ne; [exact Hl | | |]; intros E; subst l; congruence.
Qed.

Lemma renew_webdriver_options_handles_are_independent_witness :
  "--headless" <> "" /\
  exists (w3 : world),
    (let* h1 := FirefoxOptionsManager.renew_webdriver_options 1%nat in
     let* h2 := FirefoxOptionsManager.renew_webdriver_options 1%nat in
     add_argument h1 "--headless") example_world = (Ok tt, w3) /\
    options_store w3 !! 1%nat = Some Options.empty.
Proof.
  split; [discriminate |].
  destruct (renew_webdriver_options_handles_are_independent 1%nat "--headless"
              example_world ltac:(discriminate))
    as (h1 & h2 & w1 & w2 & w3 & Hr1 & Hr2 & _ & _ & _ & _ & _ & Hadd & _ & _ & Hold & _).
  exists w3. split.
  - erewrite bind_Ok by exact Hr1. erewrite bind_Ok by exact Hr2. exact Hadd.
  - apply Hold. reflexivity.
Defined.

(** ** create_driver of the local controller *)

(** X4: [create_driver] stores the manager's options handle itself in
    [webdriver_options], not a copy of it.  Arguments that
    [hide_automation] adds through the manager after the driver has been
    created are on the object [webdriver_options] refers to. *)
Theorem create_driver_shares_options_handle
    (self : FirefoxWebDriver.t) (w : world) (m : OptionsManager.t) (o : Options.t) :
  manager_store w !! FirefoxWebDriver.webdriver_options_manager self = Some m ->
  options_store w !! OptionsManager.options m = Some o ->
  fail_at w = None ->
  exists (self' : FirefoxWebDriver.t) (w' w'' : world) (handle : loc),
    FirefoxWebDriver.create_driver (self, w) = (Ok tt, (self', w')) /\
    FirefoxWebDriver.webdriver_options self' = Some handle /\
    FirefoxOptionsManager.options (FirefoxWebDriver.webdriver_options_manager self') w'
      = (Ok handle, w') /\
    options_store w' !! handle = Some o /\
    FirefoxOptionsManager.hide_automation
      (FirefoxWebDriver.webdriver_options_manager self') w' = (Ok tt, w'') /\
    (exists o', options_store w'' !! handle = Some o' /\
                Options.arguments o'
                  = Options.arguments o ++ FirefoxOptionsManager.hidden_arguments).
Proof.
  intros Hm Ho Hf.
  destruct w as [os ms ss tr fa names n]. cbn in Hm, Ho, Hf. subst fa.
  destruct self. cbn in Hm.
  eexists _, _, _, (OptionsManager.options m).
  split; [run_controller Hm; reflexivity |]. cbn.
  split; [reflexivity |].
  split; [now apply options_eq |].
  split; [exact Ho |].
  split; [apply (hide_automation_eq _ m o); [exact Hm | exact Ho] |].
  eexists. split; [cbn; apply lookup_insert_eq | reflexivity].
Qed.

Lemma create_driver_shares_options_handle_witness :
  manager_store example_world !! FirefoxWebDriver.webdriver_options_manager example_local
    = Some (built_manager 0%nat None None None) /\
  options_store example_world !! 0%nat = Some Options.empty /\
  fail_at example_world = None /\
  exists (self' : FirefoxWebDriver.t) (w' w'' : world) (handle : loc),
    FirefoxWebDriver.create_driver (example_local, example_world) = (Ok tt, (self', w')) /\
    FirefoxWebDriver.webdriver_options self' = Some handle /\
    FirefoxOptionsManager.hide_automation 0%nat w' = (Ok tt, w'') /\
    (exists o', options_store w'' !! handle = Some o' /\
                Options.arguments o' = FirefoxOptionsManager.hidden_arguments).
Proof.
  split; [reflexivity |]. split; [reflexivity |]. split; [reflexivity |].
  destruct (create_driver_shares_options_handle example_local example_world
              (built_manager 0%nat None None None) Options.empty
              eq_refl eq_refl eq_refl)
    as (self' & w' & w'' & handle & Hrun & Hopt & _ & _ & Hhide & Hargs).
  exists self', w', w'', handle.
  split; [exact Hrun |]. split; [exact Hopt |]. split; [| exact Hargs].
  assert (E : FirefoxWebDriver.webdriver_options_manager self' = 0%nat).
  { vm_compute in Hrun. injection Hrun as <- _. reflexivity. }
  rewrite <- E. exact Hhide.
Defined.





(** ** create_driver of the remote controller *)

(** X7: what a failing call leaves on the remote controller.  The stored
    address and session id are those of the arguments in every case.
    When [webdriver.Remote] fails, [driver] is still the previous handle
    and no session has been opened.  When closing the throwaway window
    fails, [driver] is the new handle, still bound to the throwaway
    session.  When a later call fails (window switch, either timeout),
    [driver] is already bound to the stored session although the method
    raises. *)
Theorem remote_create_driver_partial_failure
    (self : FirefoxRemoteWebDriver.t) (w : world) (m : OptionsManager.t)
    (command_executor session_id : option string) (k : nat) :
  manager_store w !! FirefoxRemoteWebDriver.webdriver_options_manager self = Some m ->
  fail_at w = Some k ->
  (k < 5)%nat ->
  let target := default (FirefoxRemoteWebDriver.session_id self) session_id in
  let throwaway := server_sessions w (sessions_created w) in
  exists (self' : FirefoxRemoteWebDriver.t) (w' : world),
    FirefoxRemoteWebDriver.create_driver command_executor session_id (self, w)
      = (Raise WebDriverException, (self', w')) /\
    FirefoxRemoteWebDriver.command_executor self'
      = default (FirefoxRemoteWebDriver.command_executor self) command_executor /\
    FirefoxRemoteWebDriver.session_id self' = target /\
    fail_at w' = None /\
    (k = 0%nat ->
       FirefoxRemoteWebDriver.driver self' = FirefoxRemoteWebDriver.driver self /\
       sessions_created w' = sessions_created w) /\
    (k = 1%nat ->
       FirefoxRemoteWebDriver.driver self' = Some {| WebDriver.session_id := throwaway |} /\
       forall e : event, e ∈ drop (List.length (trace w)) (trace w') -> is_rebind e = false) /\
    ((2 <= k)%nat ->
       FirefoxRemoteWebDriver.driver self' = Some {| WebDriver.session_id := target |}).
Proof.
  intros Hm Hf Hk target throwaway. subst target throwaway.
  destruct w as [os ms ss tr fa names n]. cbn in Hm, Hf. subst fa.
  destruct self. cbn in Hm.
  destruct command_executor as [c|], session_id as [s|];
    (destruct k as [|[|[|[|[|k]]]]]; try lia;
     run_controller Hm; eexists _, _;
     (split; [reflexivity |]); cbn;
     (split; [reflexivity |]); (split; [reflexivity |]); (split; [reflexivity |]);
     (split; [intros; try lia; try discriminate; split; reflexivity |]);
     (split; [| intros; try lia; reflexivity]);
     intros; try lia; try discriminate;
     (split; [reflexivity |]);
     rewrite <- ?app_assoc, drop_app_length;
     intros e He; set_unfold in He; intuition (subst; reflexivity)).
Qed.

Lemma remote_create_driver_partial_failure_witness :
  manager_store (set_fail_at (Some 1%nat) example_world)
    !! FirefoxRemoteWebDriver.webdriver_options_manager example_remote
    = Some (built_manager 1%nat None None None) /\
  fail_at (set_fail_at (Some 1%nat) example_world) = Some 1%nat /\
  (1 < 5)%nat /\
  exists (self' : FirefoxRemoteWebDriver.t) (w' : world),
    FirefoxRemoteWebDriver.create_driver None None
      (example_remote, set_fail_at (Some 1%nat) example_world)
      = (Raise WebDriverException, (self', w')) /\
    FirefoxRemoteWebDriver.session_id self' = "abc123" /\
    FirefoxRemoteWebDriver.driver self' = Some {| WebDriver.session_id := "throwaway-0" |}.
Proof.
  split; [reflexivity |]. split; [reflexivity |]. split; [lia |].
  destruct (remote_create_driver_partial_failure example_remote
              (set_fail_at (Some 1%nat) example_world)
              (built_manager 1%nat None None None) None None 1%nat
              eq_refl eq_refl ltac:(lia))
    as (self' & w' & Hrun & _ & Hsid & _ & _ & H1 & _).
  destruct (H1 eq_refl) as (Hd & _).
  exists self', w'. repeat split; assumption.
Defined.

Lemma prefix_elem_of (issued calls : list event) (e : event) :
  issued `prefix_of` calls -> e ∈ issued -> e ∈ calls.
Proof. intros [rest ->] He. apply elem_of_app. now left. Qed.

(** X8: where the commands of an attachment go.  When the server has not
    named the new session like the stored one, every command of a run is
    addressed to the throwaway session or to the stored session; the
    throwaway session receives nothing but the close-window command, and
    the stored session never receives a close-window command. *)
Theorem remote_create_driver_addresses
    (self : FirefoxRemoteWebDriver.t) (w : world) (m : OptionsManager.t)
    (command_executor session_id : option string) :
  manager_store w !! FirefoxRemoteWebDriver.webdriver_options_manager self = Some m ->
  let target := default (FirefoxRemoteWebDriver.session_id self) session_id in
  let throwaway := server_sessions w (sessions_created w) in
  throwaway <> target ->
  exists (r : result unit) (self' : FirefoxRemoteWebDriver.t) (w' : world)
         (issued : list event),
    FirefoxRemoteWebDriver.create_driver command_executor session_id (self, w)
      = (r, (self', w')) /\
    trace w' = trace w ++ issued /\
    (forall (e : event) (s : string),
       e ∈ issued -> event_session e = Some s -> s = throwaway \/ s = target) /\
    (forall e : event,
       e ∈ issued -> event_session e = Some throwaway -> e = CloseWindow throwaway) /\
    (forall e : event,
       e ∈ issued -> event_session e = Some target -> is_close_window e = false).
Proof.
  intros Hm target throwaway Hne.
  destruct (remote_create_driver_run self w m command_executor session_id Hm)
    as (r & self' & w' & issued & Hrun & [Htrace Hprefix] & _).
  fold target throwaway in Hprefix.
  exists r, self', w', issued.
  split; [exact Hrun |]. split; [exact Htrace |].
  repeat split; intros e; intros;
    match goal with
    | He : e ∈ issued |- _ =>
        apply (prefix_elem_of _ _ _ Hprefix) in He;
        unfold remote_calls in He; set_unfold in He
    end;
    intuition (subst; cbn in *; try congruence; auto).
Qed.

Lemma remote_create_driver_addresses_witness :
  manager_store example_world !! FirefoxRemoteWebDriver.webdriver_options_manager example_remote
    = Some (built_manager 1%nat None None None) /\
  "throwaway-0" <> "abc123" /\
  exists (r : result unit) (self' : FirefoxRemoteWebDriver.t) (w' : world)
         (issued : list event),
    FirefoxRemoteWebDriver.create_driver None None (example_remote, example_world)
      = (r, (self', w')) /\
    trace w' = trace example_world ++ issued /\
    (forall e : event,
       e ∈ issued -> event_session e = Some "abc123" -> is_close_window e = false).
Proof.
  split; [reflexivity |]. split; [discriminate |].
  destruct (remote_create_driver_addresses example_remote example_world
              (built_manager 1%nat None None None) None None eq_refl
              ltac:(discriminate))
    as (r & self' & w' & issued & Hrun & Htrace & _ & _ & Hclose).
  exists r, self', w', issued. repeat split; assumption.
Defined.

(** X9: attaching again abandons the session attached before without a
    command to it.  After a successful attachment to one session, a call
    [create_driver(session_id=other)] opens and closes a throwaway
    session of its own, binds the new handle to [other], and sends
    nothing to the earlier session, provided the server names the second
    throwaway session differently from it. *)
Theorem remote_create_driver_again_leaves_old_session
    (self : FirefoxRemoteWebDriver.t) (w : world) (m : OptionsManager.t)
    (command_executor session_id : option string) (other : string) :
  manager_store w !! FirefoxRemoteWebDriver.webdriver_options_manager self = Some m ->
  fail_at w = None ->
  let earlier := default (FirefoxRemoteWebDriver.session_id self) session_id in
  let throwaway := server_sessions w (S (sessions_created w)) in
  earlier <> other ->
  earlier <> throwaway ->
  exists (self1 self2 : FirefoxRemoteWebDriver.t) (w1 w2 : world) (issued : list event),
    FirefoxRemoteWebDriver.create_driver command_executor session_id (self, w)
      = (Ok tt, (self1, w1)) /\
    FirefoxRemoteWebDriver.driver self1 = Some {| WebDriver.session_id := earlier |} /\
    FirefoxRemoteWebDriver.create_driver None (Some other) (self1, w1)
      = (Ok tt, (self2, w2)) /\
    FirefoxRemoteWebDriver.driver self2 = Some {| WebDriver.session_id := other |} /\
    trace w2 = trace w1 ++ issued /\
    issued !! 1%nat = Some (CloseWindow throwaway) /\
    issued !! 2%nat = Some (AssignSessionId throwaway other) /\
    (forall e : event, e ∈ issued -> event_session e <> Some earlier) /\
    sessions_created w2 = S (S (sessions_created w)).
Proof.
  intros Hm Hf earlier throwaway Hne1 Hne2. subst earlier throwaway.
  destruct w as [os ms ss tr fa names n]. cbn in Hm, Hf, Hne2. subst fa.
  destruct self. cbn in Hm, Hne1, Hne2.
  destruct command_executor as [c|], session_id as [s|]; cbn in Hne1, Hne2;
    (eexists _, _, _, _, _;
     (split; [run_controller Hm; reflexivity |]); cbn;
     (split; [reflexivity |]);
     (split; [run_controller Hm; reflexivity |]); cbn;
     (split; [reflexivity |]);
     (split; [rewrite <- ?app_assoc; reflexivity |]);
     (split; [reflexivity |]); (split; [reflexivity |]);
     (split; [| reflexivity]);
     intros e He; set_unfold in He;
     intuition (subst; cbn in *; congruence)).
Qed.

Lemma remote_create_driver_again_leaves_old_session_witness :
  manager_store example_world !! FirefoxRemoteWebDriver.webdriver_options_manager example_remote
    = Some (built_manager 1%nat None None None) /\
  fail_at example_world = None /\
  "abc123" <> "xyz789" /\
  "abc123" <> "throwaway-1" /\
  exists (self1 self2 : FirefoxRemoteWebDriver.t) (w1 w2 : world) (issued : list event),
    FirefoxRemoteWebDriver.create_driver None None (example_remote, example_world)
      = (Ok tt, (self1, w1)) /\
    FirefoxRemoteWebDriver.create_driver None (Some "xyz789") (self1, w1)
      = (Ok tt, (self2, w2)) /\
    trace w2 = trace w1 ++ issued /\
    (forall e : event, e ∈ issued -> event_session e <> Some "abc123").
Proof.
  split; [reflexivity |]. split; [reflexivity |].
  split; [discriminate |]. split; [discriminate |].
  destruct (remote_create_driver_again_leaves_old_session example_remote example_world
              (built_manager 1%nat None None None) None None "xyz789"
              eq_refl eq_refl ltac:(discriminate) ltac:(discriminate))
    as (self1 & self2 & w1 & w2 & issued & H1 & _ & H2 & _ & Htrace & _ & _ & Hold & _).
  exists self1, self2, w1, w2, issued. repeat split; assumption.
Defined.

(** X10: an attachment spawns nothing and changes no stored object.  No
    run of the remote [create_driver] constructs a service or a Firefox
    driver or sets a window rectangle, and the options handles, managers
    and start arguments in the store are the same objects with the same
    contents afterwards, the shared default manager among them. *)
Theorem remote_create_driver_spawns_nothing
    (self : FirefoxRemoteWebDriver.t) (w : world) (m : OptionsManager.t)
    (command_executor session_id : option string) :
  manager_store w !! FirefoxRemoteWebDriver.webdriver_options_manager self = Some m ->
  exists (r : result unit) (self' : FirefoxRemoteWebDriver.t) (w' : world)
         (issued : list event),
    FirefoxRemoteWebDriver.create_driver command_executor session_id (self, w)
      = (r, (self', w')) /\
    trace w' = trace w ++ issued /\
    (forall e : event, e ∈ issued -> is_local_only e = false) /\
    (List.length issued <= 6)%nat /\
    options_store w' = options_store w /\
    manager_store w' = manager_store w /\
    start_args_store w' = start_args_store w /\
    FirefoxRemoteWebDriver.webdriver_options_manager self'
      = FirefoxRemoteWebDriver.webdriver_options_manager self.
Proof.
  intros Hm.
  destruct (remote_create_driver_run self w m command_executor session_id Hm)
    as (r & self' & w' & issued & Hrun & [Htrace Hprefix] & _
        & (_ & _ & Hom & _) & (Hos & Hms & Hss)).
  exists r, self', w', issued.
  split; [exact Hrun |]. split; [exact Htrace |].
  split.
  - intros e He. apply (prefix_elem_of _ _ _ Hprefix) in He.
    unfold remote_calls in He. set_unfold in He.
    intuition (subst; reflexivity).
  - split; [apply prefix_length in Hprefix; exact Hprefix |].
    repeat split; assumption.
Qed.

Lemma remote_create_driver_spawns_nothing_witness :
  manager_store example_world !! FirefoxRemoteWebDriver.webdriver_options_manager example_remote
    = Some (built_manager 1%nat None None None) /\
  exists (r : result unit) (self' : FirefoxRemoteWebDriver.t) (w' : world),
    FirefoxRemoteWebDriver.create_driver None None (example_remote, example_world)
      = (r, (self', w')) /\
    manager_store w' = manager_store example_world.
Proof.
  split; [reflexivity |].
  destruct (remote_create_driver_spawns_nothing example_remote example_world
              (built_manager 1%nat None None None) None None eq_refl)
    as (r & self' & w' & issued & Hrun & _ & _ & _ & _ & Hms & _).
  exists r, self', w'. split; assumption.
Defined.

(** ** What create_driver of the local controller depends on *)

(** X11: [create_driver] reads the webdriver path, the options manager,
    the window rectangle and the two timeouts, and nothing else.  Two
    controllers that agree on these five attributes, whatever their start
    arguments, debugging port, profile directory, headless and mute-audio
    flags, user agent, proxy and previous service, options and driver,
    make the same calls with the same outcome in every run, and a run
    that returns leaves both with the same service, options and driver.
    In particular a changed configuration attribute has no effect on
    [create_driver] by itself. *)
Theorem create_driver_ignores_stored_configuration
    (a b : FirefoxWebDriver.t) (w : world) :
  FirefoxWebDriver.webdriver_path a = FirefoxWebDriver.webdriver_path b ->
  FirefoxWebDriver.webdriver_options_manager a
    = FirefoxWebDriver.webdriver_options_manager b ->
  FirefoxWebDriver.window_rect a = FirefoxWebDriver.window_rect b ->
  FirefoxWebDriver.base_implicitly_wait a = FirefoxWebDriver.base_implicitly_wait b ->
  FirefoxWebDriver.base_page_load_timeout a = FirefoxWebDriver.base_page_load_timeout b ->
  exists (r : result unit) (a' b' : FirefoxWebDriver.t) (w' : world),
    FirefoxWebDriver.create_driver (a, w) = (r, (a', w')) /\
    FirefoxWebDriver.create_driver (b, w) = (r, (b', w')) /\
    (r = Ok tt ->
     FirefoxWebDriver.webdriver_service a' = FirefoxWebDriver.webdriver_service b' /\
     FirefoxWebDriver.webdriver_options a' = FirefoxWebDriver.webdriver_options b' /\
     FirefoxWebDriver.driver a' = FirefoxWebDriver.driver b') /\
    (fail_at w = None ->
     is_Some (manager_store w !! FirefoxWebDriver.webdriver_options_manager a) ->
     r = Ok tt).
Proof.
  intros Hp Hm Hr Hi Ht.
  destruct w as [os ms ss tr fa names n].
  destruct a, b. cbn in Hp, Hm, Hr, Hi, Ht. subst.
  destruct (ms !! webdriver_options_manager0) as [m|] eqn:Hl;
    destruct fa as [[|[|[|[|[|[|k]]]]]]|];
    run_controller Hl; eexists _, _, _, _;
    (split; [reflexivity |]); (split; [reflexivity |]); cbn;
    split; intros; try discriminate; repeat split;
    match goal with H : is_Some None |- _ => destruct H; discriminate end.
Qed.

Lemma create_driver_ignores_stored_configuration_witness :
  let changed :=
    reconfigured (Some 9222) (Some "/tmp/profile") true true
      (Some ["My"; "User"; "Agent"]) (Some (ProxyStr "127.0.0.1:8080")) example_local in
  FirefoxWebDriver.webdriver_path example_local = FirefoxWebDriver.webdriver_path changed /\
  FirefoxWebDriver.webdriver_options_manager example_local
    = FirefoxWebDriver.webdriver_options_manager changed /\
  FirefoxWebDriver.window_rect example_local = FirefoxWebDriver.window_rect changed /\
  FirefoxWebDriver.base_implicitly_wait example_local
    = FirefoxWebDriver.base_implicitly_wait changed /\
  FirefoxWebDriver.base_page_load_timeout example_local
    = FirefoxWebDriver.base_page_load_timeout changed /\
  exists (a' b' : FirefoxWebDriver.t) (w' : world),
    FirefoxWebDriver.create_driver (example_local, example_world) = (Ok tt, (a', w')) /\
    FirefoxWebDriver.create_driver (changed, example_world) = (Ok tt, (b', w')) /\
    FirefoxWebDriver.webdriver_options a' = FirefoxWebDriver.webdriver_options b'.
Proof.
  intros changed. repeat (split; [reflexivity |]).
  destruct (create_driver_ignores_stored_configuration example_local changed example_world
              eq_refl eq_refl eq_refl eq_refl eq_refl)
    as (r & a' & b' & w' & Ha & Hb & Hsame & Hok).
  assert (E : r = Ok tt) by (apply Hok; [reflexivity | eexists; reflexivity]).
  subst r. destruct (Hsame eq_refl) as (_ & Hopt & _).
  exists a', b', w'. repeat split; assumption.
Defined.

(** X12: [renew_bas_and_bom] followed by [create_driver] starts the
    browser with the handle of the manager just built, not with the one
    the controller held before.  When no call fails the sequence returns;
    the handle passed to [webdriver.Firefox] and kept in
    [webdriver_options] is a new object that belongs to the new manager,
    and every handle, manager and start-arguments object that existed
    before is still in the store unchanged. *)
Theorem renew_then_create_driver_uses_new_manager
    (self : FirefoxWebDriver.t) (w : world) :
  fail_at w = None ->
  exists (self' : FirefoxWebDriver.t) (w' : world) (handle : loc)
         (m' : OptionsManager.t) (issued : list event),
    (FirefoxWebDriver.renew_bas_and_bom;; FirefoxWebDriver.create_driver) (self, w)
      = (Ok tt, (self', w')) /\
    options_store w !! handle = None /\
    manager_store w !! FirefoxWebDriver.webdriver_options_manager self' = None /\
    manager_store w' !! FirefoxWebDriver.webdriver_options_manager self' = Some m' /\
    OptionsManager.options m' = handle /\
    FirefoxWebDriver.webdriver_options self' = Some handle /\
    trace w' = trace w ++ issued /\
    issued !! 1%nat
      = Some (NewFirefox (Some handle)
                (Some {| Service.executable_path := FirefoxWebDriver.webdriver_path self |})) /\
    (forall (l : loc) (o : Options.t),
       options_store w !! l = Some o -> options_store w' !! l = Some o) /\
    (forall (l : loc) (m : OptionsManager.t),
       manager_store w !! l = Some m -> manager_store w' !! l = Some m) /\
    (forall (l : loc) (a : StartArgs.t),
       start_args_store w !! l = Some a -> start_args_store w' !! l = Some a).
Proof.
  intros Hf.
  erewrite bind_Ok by apply renew_bas_and_bom_eq.
  assert (Ho := fresh_options_unused w).
  assert (Hm : manager_store w !! fresh (dom (manager_store w)) = None)
    by apply not_elem_of_dom, is_fresh.
  assert (Hs : start_args_store w !! fresh (dom (start_args_store w)) = None)
    by apply not_elem_of_dom, is_fresh.
  destruct w as [os ms ss tr fa names n]. cbn in Hf, Ho, Hm, Hs. subst fa.
  destruct self.
  eexists _, _, (fresh (dom os)), _, _.
  split.
  { autounfold with py. unfold set_manager_store, set_options_store, set_start_args_store.
    cbn. rewrite lookup_insert_eq. cbn. reflexivity. }
  cbn.
  split; [exact Ho |]. split; [exact Hm |].
  split; [apply lookup_insert_eq |].
  split; [reflexivity |]. split; [reflexivity |].
  split; [rewrite <- ?app_assoc; reflexivity |].
  split; [reflexivity |].
  repeat split; intros l x Hl; rewrite lookup_insert_ne; try exact Hl;
    intros E; subst l; congruence.
Qed.

Lemma renew_then_create_driver_uses_new_manager_witness :
  fail_at example_world = None /\
  exists (self' : FirefoxWebDriver.t) (w' : world),
    (FirefoxWebDriver.renew_bas_and_bom;; FirefoxWebDriver.create_driver)
      (example_local, example_world) = (Ok tt, (self', w')) /\
    FirefoxWebDriver.webdriver_options self' = Some 2%nat /\
    options_store w' !! 0%nat = Some Options.empty.
Proof.
  split; [reflexivity |].
  destruct (renew_then_create_driver_uses_new_manager example_local example_world eq_refl)
    as (self' & w' & handle & m' & issued & Hrun & _ & _ & _ & _ & Hopt & _ & _ & Hold & _).
  exists self', w'. split; [exact Hrun |]. split.
  - vm_compute in Hrun. injection Hrun as <- _. reflexivity.
  - apply Hold. reflexivity.
Defined.
